(** * tinyconf: a shallow embedding of [tinyconf.py]

    The editor object of [TinyconfEditor] is a record, its methods are
    functions on that record, and the blocking event loop of [main] (with the
    nested loop of [prompt_save]) is a step function driven by a list of
    terminal inputs.  A Python [str] is a list of code points, Python's
    [int] is [Z], an uncaught [IndexError] is [None]. *)

From stdpp Require Import base option list gmap strings.
From Stdlib Require Import ZArith Lia.

Local Open Scope Z_scope.

(** ** Python values *)

(** A [str] as the sequence of its code points. *)
Abbreviation pystr := (list Z).

(** A string literal of the source, read as code points. *)
Definition py (s : string) : pystr :=
  (λ a, Z.of_nat (Ascii.nat_of_ascii a)) <$> String.list_ascii_of_string s.

Module Py.

(** [len(l)] *)
Definition len {A} (l : list A) : Z := Z.of_nat (length l).

(** The position an index denotes: negative indices count from the end;
    anything outside [-len, len) raises [IndexError]. *)
Definition index {A} (l : list A) (i : Z) : option nat :=
  if bool_decide (0 ≤ i < len l) then Some (Z.to_nat i)
  else if bool_decide (- len l ≤ i < 0) then Some (Z.to_nat (len l + i))
  else None.

(** [l[i]] *)
Definition get {A} (l : list A) (i : Z) : option A :=
  n ← index l i; l !! n.

(** [l[i] = x] *)
Definition set {A} (l : list A) (i : Z) (x : A) : option (list A) :=
  n ← index l i; Some (<[n := x]> l).

(** [l.pop(i)], the popped element dropped. *)
Definition pop {A} (l : list A) (i : Z) : option (list A) :=
  n ← index l i; Some (delete n l).

(** The boundary a slice bound denotes: negative bounds count from the
    end, and every bound is clipped into [0, len]. *)
Definition bound {A} (l : list A) (k : Z) : nat :=
  if bool_decide (k < 0) then Z.to_nat (Z.max 0 (len l + k)) else Z.to_nat k.

(** [l[:k]] *)
Definition upto {A} (l : list A) (k : Z) : list A := take (bound l k) l.

(** [l[k:]] *)
Definition from {A} (l : list A) (k : Z) : list A := drop (bound l k) l.

(** [l.insert(i, x)] *)
Definition insert {A} (l : list A) (i : Z) (x : A) : list A :=
  take (bound l i) l ++ x :: drop (bound l i) l.

(** [sep.join(ls)] *)
Fixpoint join (sep : pystr) (ls : list pystr) : pystr :=
  match ls with
  | [] => []
  | [l] => l
  | l :: rest => l ++ sep ++ join sep rest
  end.

(** The characters at which [str.splitlines] breaks a line. *)
Definition linebreak (c : Z) : bool :=
  bool_decide (c ∈ [10; 11; 12; 13; 28; 29; 30; 133; 8232; 8233]).

(** [s.splitlines()], scanning left to right: [cur] is the line being
    collected and [after_cr] says that the previous character was a
    carriage return, whose line feed is part of the same line break.  A
    text that ends in a line break does not end in an extra empty line. *)
Fixpoint splitlines_from (after_cr : bool) (cur s : pystr) : list pystr :=
  match s with
  | [] => match cur with [] => [] | _ => [cur] end
  | c :: s' =>
      if after_cr && bool_decide (c = 10) then splitlines_from false cur s'
      else if linebreak c then cur :: splitlines_from (bool_decide (c = 13)) [] s'
      else splitlines_from false (cur ++ [c]) s'
  end.

Definition splitlines (s : pystr) : list pystr := splitlines_from false [] s.

(** The characters [str.strip()] removes ([str.isspace]). *)
Definition isspace (c : Z) : bool :=
  bool_decide (9 ≤ c ≤ 13) || bool_decide (28 ≤ c ≤ 32)
  || bool_decide (c ∈ [133; 160; 5760; 8232; 8233; 8239; 8287; 12288])
  || bool_decide (8192 ≤ c ≤ 8202).

Fixpoint lstrip (s : pystr) : pystr :=
  match s with
  | c :: s' => if isspace c then lstrip s' else s
  | [] => []
  end.

(** [s.strip()] *)
Definition strip (s : pystr) : pystr := reverse (lstrip (reverse (lstrip s))).

(** Reading a text file opened with the default [newline=None]: the line
    endings CR LF and CR arrive as LF. *)
Fixpoint universal_newlines (s : pystr) : pystr :=
  match s with
  | [] => []
  | c :: s' =>
      if bool_decide (c = 13) then
        10 :: match s' with
              | d :: s'' => if bool_decide (d = 10) then universal_newlines s''
                            else universal_newlines s'
              | [] => []
              end
      else c :: universal_newlines s'
  end.

End Py.

(** ** The terminal library *)

(** The key codes of [curses] that the editor compares against, with the
    values ncurses gives them. *)
Module Curses.
Definition KEY_DOWN : Z := 258.
Definition KEY_UP : Z := 259.
Definition KEY_LEFT : Z := 260.
Definition KEY_RIGHT : Z := 261.
Definition KEY_BACKSPACE : Z := 263.
Definition KEY_ENTER : Z := 343.
Definition KEY_MOUSE : Z := 409.
End Curses.

(** What the terminal hands to one round of a loop: the height that
    [getmaxyx] reports, the code that [getch] returns, and the position that
    [getmouse] reports when that code is [KEY_MOUSE].  (ncurses changes the
    reported size only when [getch] returns the resize key, so one height
    per round is what the code sees.) *)
Record input := Input {
  rows : Z;
  key : Z;
  mouse_x : Z;
  mouse_y : Z
}.

(** ** The editor object *)

(** The fields of [TinyconfEditor] that the editing code reads or writes,
    followed by the file system it opens files in: [files] maps a path to
    the text stored there, [writes] lists the texts written so far, latest
    first.  Opening and writing a file are taken to succeed, and the
    platform is POSIX ([termios] exists only there), so a written line feed
    is stored as it is. *)
Record TinyconfEditor := Editor {
  buffer : list pystr;
  cursor_y : Z;
  cursor_x : Z;
  scroll_offset : Z;
  filepath : option string;
  status : pystr;
  status_timer : Z;
  unsaved : bool;
  command_mode : bool;
  command_input : pystr;
  slash_prefix : bool;
  files : gmap string pystr;
  writes : list (string * pystr)
}.

Definition set_buffer (v : list pystr) (s : TinyconfEditor) : TinyconfEditor :=
  Editor v (cursor_y s) (cursor_x s) (scroll_offset s) (filepath s) (status s)
    (status_timer s) (unsaved s) (command_mode s) (command_input s)
    (slash_prefix s) (files s) (writes s).

Definition set_cursor_y (v : Z) (s : TinyconfEditor) : TinyconfEditor :=
  Editor (buffer s) v (cursor_x s) (scroll_offset s) (filepath s) (status s)
    (status_timer s) (unsaved s) (command_mode s) (command_input s)
    (slash_prefix s) (files s) (writes s).

Definition set_cursor_x (v : Z) (s : TinyconfEditor) : TinyconfEditor :=
  Editor (buffer s) (cursor_y s) v (scroll_offset s) (filepath s) (status s)
    (status_timer s) (unsaved s) (command_mode s) (command_input s)
    (slash_prefix s) (files s) (writes s).

Definition set_scroll_offset (v : Z) (s : TinyconfEditor) : TinyconfEditor :=
  Editor (buffer s) (cursor_y s) (cursor_x s) v (filepath s) (status s)
    (status_timer s) (unsaved s) (command_mode s) (command_input s)
    (slash_prefix s) (files s) (writes s).

Definition set_status (v : pystr) (s : TinyconfEditor) : TinyconfEditor :=
  Editor (buffer s) (cursor_y s) (cursor_x s) (scroll_offset s) (filepath s) v
    (status_timer s) (unsaved s) (command_mode s) (command_input s)
    (slash_prefix s) (files s) (writes s).

Definition set_status_timer (v : Z) (s : TinyconfEditor) : TinyconfEditor :=
  Editor (buffer s) (cursor_y s) (cursor_x s) (scroll_offset s) (filepath s)
    (status s) v (unsaved s) (command_mode s) (command_input s)
    (slash_prefix s) (files s) (writes s).

Definition set_unsaved (v : bool) (s : TinyconfEditor) : TinyconfEditor :=
  Editor (buffer s) (cursor_y s) (cursor_x s) (scroll_offset s) (filepath s)
    (status s) (status_timer s) v (command_mode s) (command_input s)
    (slash_prefix s) (files s) (writes s).

Definition set_command_mode (v : bool) (s : TinyconfEditor) : TinyconfEditor :=
  Editor (buffer s) (cursor_y s) (cursor_x s) (scroll_offset s) (filepath s)
    (status s) (status_timer s) (unsaved s) v (command_input s)
    (slash_prefix s) (files s) (writes s).

Definition set_command_input (v : pystr) (s : TinyconfEditor) : TinyconfEditor :=
  Editor (buffer s) (cursor_y s) (cursor_x s) (scroll_offset s) (filepath s)
    (status s) (status_timer s) (unsaved s) (command_mode s) v
    (slash_prefix s) (files s) (writes s).

(** [open(path, 'w')] followed by [f.write(text)]. *)
Definition write_file (path : string) (text : pystr) (s : TinyconfEditor) : TinyconfEditor :=
  Editor (buffer s) (cursor_y s) (cursor_x s) (scroll_offset s) (filepath s)
    (status s) (status_timer s) (unsaved s) (command_mode s) (command_input s)
    (slash_prefix s) (<[path := text]> (files s)) ((path, text) :: writes s).

(** The truth value of [self.filepath]: [None] and the empty string are
    false, any other path is true. *)
Definition target (fp : option string) : option string :=
  match fp with
  | Some p => if decide (p = EmptyString) then None else Some p
  | None => None
  end.

(** [f.read()] on a file opened for reading as text. *)
Definition read_file (text : pystr) : pystr := Py.universal_newlines text.

(** [f.read().splitlines() or [""]] *)
Definition load (text : pystr) : list pystr :=
  match Py.splitlines (read_file text) with
  | [] => [[]]
  | ls => ls
  end.

(** [__init__] up to its call of [main]: the fields as they are assigned,
    the buffer replaced by the file's lines when the path is true and the
    file exists. *)
Definition init (fs : gmap string pystr) (fp : option string) : TinyconfEditor :=
  let buffer :=
    match target fp with
    | Some p => match fs !! p with
                | Some text => load text
                | None => [[]]
                end
    | None => [[]]
    end in
  Editor buffer 0 0 0 fp (py "EXEC MODE: type /q to quit, /s to save") 0
    false false [] false fs [].

(** ** Rendering *)

(** The clamping at the top of [draw]: the scroll offset is cut to the
    buffer, the cursor row is cut to the buffer, and the offset then follows
    the cursor. *)
Definition reconcile (visible_height : Z) (s : TinyconfEditor) : TinyconfEditor :=
  let so := Z.min (scroll_offset s) (Z.max 0 (Py.len (buffer s) - visible_height)) in
  let cy := Z.max 0 (Z.min (cursor_y s) (Py.len (buffer s) - 1)) in
  let so :=
    if decide (cy < so) then cy
    else if decide (cy >= so + visible_height) then cy - visible_height + 1
    else so in
  set_cursor_y cy (set_scroll_offset so s).

(** The loop of [draw] over the text rows: it stops at the end of the
    buffer and reads [self.buffer[line_index]] otherwise.  What it paints is
    not part of the state. *)
Fixpoint draw_lines (s : TinyconfEditor) (range : list Z) : option () :=
  match range with
  | [] => Some ()
  | i :: range' =>
      let line_index := scroll_offset s + i in
      if decide (line_index >= Py.len (buffer s)) then Some ()
      else _ ← Py.get (buffer s) line_index; draw_lines s range'
  end.

(** [draw], for a terminal of [h] rows.  Painting changes no field and its
    [curses.error]s are caught, so what remains is the clamping, the reads of
    the buffer, and the cut of the cursor column to its line. *)
Definition draw (h : Z) (s : TinyconfEditor) : option TinyconfEditor :=
  let visible_height := h - 1 in
  let s := reconcile visible_height s in
  _ ← draw_lines s (seqZ 0 visible_height);
  line ← Py.get (buffer s) (cursor_y s);
  Some (set_cursor_x (Z.min (cursor_x s) (Py.len line)) s).

(** ** Editing *)

Definition insert (ch : pystr) (s : TinyconfEditor) : option TinyconfEditor :=
  line ← Py.get (buffer s) (cursor_y s);
  b ← Py.set (buffer s) (cursor_y s)
        (Py.upto line (cursor_x s) ++ ch ++ Py.from line (cursor_x s));
  Some (set_unsaved true (set_cursor_x (cursor_x s + 1) (set_buffer b s))).

Definition backspace (s : TinyconfEditor) : option TinyconfEditor :=
  s' ← (if decide (cursor_x s > 0) then
          line ← Py.get (buffer s) (cursor_y s);
          b ← Py.set (buffer s) (cursor_y s)
                (Py.upto line (cursor_x s - 1) ++ Py.from line (cursor_x s));
          Some (set_cursor_x (cursor_x s - 1) (set_buffer b s))
        else if decide (cursor_y s > 0) then
          prev ← Py.get (buffer s) (cursor_y s - 1);
          cur ← Py.get (buffer s) (cursor_y s);
          b ← Py.set (buffer s) (cursor_y s - 1) (prev ++ cur);
          b ← Py.pop b (cursor_y s);
          Some (set_cursor_y (cursor_y s - 1)
                  (set_buffer b (set_cursor_x (Py.len prev) s)))
        else Some s);
  Some (set_unsaved true s').

Definition newline (s : TinyconfEditor) : option TinyconfEditor :=
  line ← Py.get (buffer s) (cursor_y s);
  b ← Py.set (buffer s) (cursor_y s) (Py.upto line (cursor_x s));
  let b := Py.insert b (cursor_y s + 1) (Py.from line (cursor_x s)) in
  Some (set_unsaved true (set_cursor_x 0 (set_cursor_y (cursor_y s + 1) (set_buffer b s)))).

Definition move_cursor (key : Z) (s : TinyconfEditor) : option TinyconfEditor :=
  s' ← (if decide (key = Curses.KEY_UP ∧ cursor_y s > 0) then
          Some (set_cursor_y (cursor_y s - 1) s)
        else if decide (key = Curses.KEY_DOWN ∧ cursor_y s < Py.len (buffer s) - 1) then
          Some (set_cursor_y (cursor_y s + 1) s)
        else if decide (key = Curses.KEY_LEFT) then
          if decide (cursor_x s > 0) then Some (set_cursor_x (cursor_x s - 1) s)
          else if decide (cursor_y s > 0) then
            line ← Py.get (buffer s) (cursor_y s - 1);
            Some (set_cursor_x (Py.len line) (set_cursor_y (cursor_y s - 1) s))
          else Some s
        else if decide (key = Curses.KEY_RIGHT) then
          line ← Py.get (buffer s) (cursor_y s);
          if decide (cursor_x s < Py.len line) then Some (set_cursor_x (cursor_x s + 1) s)
          else if decide (cursor_y s < Py.len (buffer s) - 1) then
            Some (set_cursor_x 0 (set_cursor_y (cursor_y s + 1) s))
          else Some s
        else Some s);
  line ← Py.get (buffer s') (cursor_y s');
  Some (set_cursor_x (Z.min (cursor_x s') (Py.len line)) s').

(** ** Saving and commands *)

Definition save_file (s : TinyconfEditor) : TinyconfEditor :=
  match target (filepath s) with
  | Some path =>
      set_status_timer 20
        (set_status (py "File saved.")
           (set_unsaved false (write_file path (Py.join [10] (buffer s)) s)))
  | None => s
  end.

(** Where control is between two reads of [getch]: in the loop of [main],
    in the loop of [prompt_save] (itself called from [handle_command] inside
    [main]), or past the end of [main]. *)
Inductive control := Running | Prompting | Exited.

(** One round of the loop of [prompt_save] on the key read: the value
    returned, or [None] when the loop goes on. *)
Definition prompt_save_key (key : Z) (s : TinyconfEditor) : option bool * TinyconfEditor :=
  if decide (key = 27) then
    (Some false, set_status_timer 20 (set_status (py "Canceled.") s))
  else if decide (key ∈ [121; 89]) then (Some true, save_file s)
  else if decide (key ∈ [110; 78]) then (Some true, s)
  else (None, s).

(** The last lines of [handle_command], which return [True]. *)
Definition handle_command_done (s : TinyconfEditor) : TinyconfEditor :=
  set_command_mode false (set_command_input [] s).

(** The lines of [main] after its loop. *)
Definition main_exit (s : TinyconfEditor) : TinyconfEditor :=
  match target (filepath s) with
  | Some _ => if unsaved s then save_file s else s
  | None => s
  end.

(** How a call of [prompt_save] that returned [r] carries on: through the
    rest of [handle_command] and, when that returns [False], out of the loop
    of [main]. *)
Definition after_prompt (r : bool) (s : TinyconfEditor) : control * TinyconfEditor :=
  if r then (Exited, main_exit s) else (Running, handle_command_done s).

(** [handle_command] as called from [main], up to the next read of a key.
    The quit command with unsaved changes sets the prompt, draws, and leaves
    control in the loop of [prompt_save]. *)
Definition handle_command (h : Z) (s : TinyconfEditor) : option (control * TinyconfEditor) :=
  let cmd := Py.strip (command_input s) in
  if decide (cmd = py "/") then
    s ← insert (py "/") s; Some (Running, handle_command_done s)
  else if decide (cmd = py "q") then
    if negb (unsaved s) then Some (Exited, main_exit s)
    else
      s ← draw h (set_status (py "Save before quitting? (y/N/esc)") s);
      Some (Prompting, s)
  else if decide (cmd = py "s") then
    Some (Running, handle_command_done (save_file s))
  else Some (Running, handle_command_done s).

(** The countdown of the status line, run after each [draw] of [main]. *)
Definition tick (s : TinyconfEditor) : TinyconfEditor :=
  if decide (status_timer s > 0) then
    let s := set_status_timer (status_timer s - 1) s in
    if decide (status_timer s = 0) then
      set_status (py "COMMAND MODE: type /q to quit, /s to save") s
    else s
  else s.

(** The mouse branch of [main]. *)
Definition click (i : input) (s : TinyconfEditor) : option TinyconfEditor :=
  if decide (mouse_y i < rows i - 1) then
    let line_idx := scroll_offset s + mouse_y i in
    if decide (0 ≤ line_idx < Py.len (buffer s)) then
      let s := set_cursor_y line_idx s in
      line ← Py.get (buffer s) (cursor_y s);
      Some (set_cursor_x (Z.max 0 (Z.min (mouse_x i - 5) (Py.len line))) s)
    else Some s
  else Some s.

(** The body of the loop of [main] from the key read on. *)
Definition dispatch (i : input) (s : TinyconfEditor) : option (control * TinyconfEditor) :=
  let key := key i in
  if command_mode s then
    if decide (key ∈ [10; 13]) then handle_command (rows i) s
    else if decide (key = 27) then
      Some (Running, set_command_mode false (set_command_input [] s))
    else if decide (key ∈ [Curses.KEY_BACKSPACE; 127]) then
      Some (Running, set_command_input (Py.upto (command_input s) (-1)) s)
    else if decide (0 ≤ key < 256) then
      Some (Running, set_command_input (command_input s ++ [key]) s)
    else Some (Running, s)
  else if decide (key = 47) then
    Some (Running, set_command_input [] (set_command_mode true s))
  else if decide (key ∈ [Curses.KEY_BACKSPACE; 127]) then
    s ← backspace s; Some (Running, s)
  else if decide (key = Curses.KEY_ENTER ∨ key = 10) then
    s ← newline s; Some (Running, s)
  else if decide (key ∈ [Curses.KEY_UP; Curses.KEY_DOWN; Curses.KEY_LEFT; Curses.KEY_RIGHT]) then
    s ← move_cursor key s; Some (Running, s)
  else if decide (key = Curses.KEY_MOUSE) then
    s ← click i s; Some (Running, s)
  else if decide (0 ≤ key < 256) then
    s ← insert [key] s; Some (Running, s)
  else Some (Running, s).

(** One round of the loop of [main]: the render, the countdown, the read of
    a key and its handling. *)
Definition main_round (i : input) (s : TinyconfEditor) : option (control * TinyconfEditor) :=
  s ← draw (rows i) s;
  dispatch i (tick s).

(** One read of [getch] and what follows it, wherever control is. *)
Definition step (i : input) (c : control) (s : TinyconfEditor) : option (control * TinyconfEditor) :=
  match c with
  | Running => main_round i s
  | Prompting =>
      match prompt_save_key (key i) s with
      | (Some r, s) => Some (after_prompt r s)
      | (None, s) => Some (Prompting, s)
      end
  | Exited => Some (Exited, s)
  end.

(** A session: the inputs are consumed in order, one per read. *)
Fixpoint run (ins : list input) (c : control) (s : TinyconfEditor) : option (control * TinyconfEditor) :=
  match ins with
  | [] => Some (c, s)
  | i :: ins' =>
      match step i c s with
      | Some (c', s') => run ins' c' s'
      | None => None
      end
  end.

(** ** The properties of a state *)

(** The cursor is on a line of the buffer and on or just after a character
    of that line. *)
Definition cursor_ok (s : TinyconfEditor) : Prop :=
  0 ≤ cursor_y s < Py.len (buffer s) ∧
  ∃ line, Py.get (buffer s) (cursor_y s) = Some line ∧
          0 ≤ cursor_x s ≤ Py.len line.

(** The scroll offset is within the buffer and the cursor row is among the
    [visible_height] rows that start there. *)
Definition viewport_ok (visible_height : Z) (s : TinyconfEditor) : Prop :=
  0 ≤ scroll_offset s ≤ Z.max 0 (Py.len (buffer s) - visible_height) ∧
  scroll_offset s ≤ cursor_y s < scroll_offset s + visible_height.

(** What every state of a session satisfies. *)
Definition inv (s : TinyconfEditor) : Prop :=
  cursor_ok s ∧ 0 ≤ scroll_offset s.

(** The part of the state that the cursor and the window are about. *)
Definition same_view (s s' : TinyconfEditor) : Prop :=
  buffer s' = buffer s ∧ cursor_y s' = cursor_y s ∧
  cursor_x s' = cursor_x s ∧ scroll_offset s' = scroll_offset s.

(** Everything but the cursor position is the same in both states. *)
Definition only_cursor_differs (s s' : TinyconfEditor) : Prop :=
  buffer s' = buffer s ∧ scroll_offset s' = scroll_offset s ∧
  filepath s' = filepath s ∧ status s' = status s ∧
  status_timer s' = status_timer s ∧ unsaved s' = unsaved s ∧
  command_mode s' = command_mode s ∧ command_input s' = command_input s ∧
  slash_prefix s' = slash_prefix s ∧ files s' = files s ∧ writes s' = writes s.

(** The document, its target, the command line and the file system are the
    same in both states. *)
Definition same_document (s s' : TinyconfEditor) : Prop :=
  buffer s' = buffer s ∧ filepath s' = filepath s ∧ unsaved s' = unsaved s ∧
  command_mode s' = command_mode s ∧ command_input s' = command_input s ∧
  files s' = files s ∧ writes s' = writes s.

(** No character of the line breaks a line when the text is read back. *)
Definition plain (line : pystr) : Prop :=
  Forall (λ c, Py.linebreak c = false) line.

(** The lines without the last one when that one is empty: what
    [splitlines] returns for lines joined by line feeds. *)
Fixpoint without_final_blank (ls : list pystr) : list pystr :=
  match ls with
  | [] => []
  | [l] => match l with [] => [] | _ => [l] end
  | l :: rest => l :: without_final_blank rest
  end.

(** The inputs that stand for typing the characters of [s] on a terminal of
    [h] rows. *)
Definition typing (h : Z) (s : pystr) : list input :=
  (λ c, Input h c 0 0) <$> s.

(** ** The document as one text *)

(** The text that [save_file] would write. *)
Definition document (s : TinyconfEditor) : pystr := Py.join [10] (buffer s).

(** The line the cursor is on (empty when the cursor row is no row). *)
Definition current_line (s : TinyconfEditor) : pystr :=
  default [] (buffer s !! Z.to_nat (cursor_y s)).

(** The part of the document before the cursor: the rows above, each with
    its line feed, and the characters of the cursor row left of the
    cursor. *)
Definition text_before (s : TinyconfEditor) : pystr :=
  concat ((λ l, l ++ [10]) <$> take (Z.to_nat (cursor_y s)) (buffer s))
  ++ take (Z.to_nat (cursor_x s)) (current_line s).

(** The part of the document from the cursor on. *)
Definition text_after (s : TinyconfEditor) : pystr :=
  drop (Z.to_nat (cursor_x s)) (current_line s)
  ++ concat ((λ l, 10 :: l) <$> drop (S (Z.to_nat (cursor_y s))) (buffer s)).

(** The buffer is [pre], then [line], then [post], and the cursor is on
    [line] with [k] of its characters to the left. *)
Definition at_cursor (s : TinyconfEditor) (pre : list pystr) (line : pystr)
    (post : list pystr) (k : nat) : Prop :=
  buffer s = pre ++ line :: post ∧
  cursor_y s = Z.of_nat (length pre) ∧
  cursor_x s = Z.of_nat k ∧ (k ≤ length line)%nat.

(** A session on a file of the two lines "ab" and "cd". *)
Definition two_lines : TinyconfEditor :=
  init {[ "f" := py "ab" ++ [10] ++ py "cd" ]} (Some "f").

(** ** What a session keeps about its files *)

(** Between two states nothing was written and the countdown stands; the
    buffer is the same unless the dirty flag is now set. *)
Definition quiet (s s' : TinyconfEditor) : Prop :=
  filepath s' = filepath s ∧ files s' = files s ∧ writes s' = writes s ∧
  status_timer s' = status_timer s ∧
  (unsaved s' = true ∨ (unsaved s' = unsaved s ∧ buffer s' = buffer s)).

(** What holds of the files in every state of the session that started on
    the file system [fs] with the path argument [fp]. *)
Definition session_inv (fs : gmap string pystr) (fp : option string)
    (s : TinyconfEditor) : Prop :=
  filepath s = fp ∧
  Forall (λ w, target fp = Some w.1) (writes s) ∧
  (∀ q, target fp ≠ Some q → files s !! q = fs !! q) ∧
  (writes s = [] → files s = fs) ∧
  (unsaved s = false →
     buffer s = buffer (init fs fp) ∨
     ∃ p, target fp = Some p ∧ files s !! p = Some (document s)) ∧
  0 ≤ status_timer s ≤ 20.

(** ** Starting the program *)

(** What [run_tinyconf] leaves behind: the version printed, or an editor
    ready for its first round. *)
Inductive started :=
  | PrintedVersion (v : string)
  | Editing (s : TinyconfEditor).

(** [run_tinyconf] on the parsed arguments, up to the first round of the
    editor: a true path with no file gets an empty file before the editor
    is created.  The editor's own log of writes starts empty. *)
Definition run_tinyconf (file : option string) (version : bool)
    (fs : gmap string pystr) : started :=
  if version then PrintedVersion "0.1.0"
  else
    let fs :=
      match target file with
      | Some p => match fs !! p with
                  | Some _ => fs
                  | None => <[p := []]> fs
                  end
      | None => fs
      end in
    Editing (init fs file).

(** An entry of the list that [termios.tcgetattr] returns: one of the six
    integers, or the list of control characters. *)
Inductive tty_attr (C : Type) :=
  | Flags (z : Z)
  | ControlChars (cc : C).
Arguments Flags {C} z.
Arguments ControlChars {C} cc.

(** [disable_flow_control]: [isatty] is what [sys.stdin.isatty()] answers,
    [attrs] what [tcgetattr] returns, and the result what [tcsetattr] is
    given ([attrs] itself when nothing is set).  The three constants are
    those of [termios]; [&] on an entry that is no integer raises. *)
Definition disable_flow_control {C} (IXON IXOFF IXANY : Z) (isatty : bool)
    (attrs : list (tty_attr C)) : option (list (tty_attr C)) :=
  if isatty then
    a ← Py.get attrs 3;
    match a with
    | Flags z =>
        Py.set attrs 3 (Flags (Z.land z (Z.lnot (Z.lor (Z.lor IXON IXOFF) IXANY))))
    | ControlChars _ => None
    end
  else Some attrs.

(** ** Colours *)

(** The argument of [hex_to_rgb]: a tuple, or a string. *)
Inductive colour (T : Type) :=
  | ColourTuple (t : T)
  | ColourString (s : pystr).
Arguments ColourTuple {T} t.
Arguments ColourString {T} s.

(** What [hex_to_rgb] returns: the tuple it was given, or the tuple of the
    three integers it read. *)
Inductive rgb (T : Type) :=
  | Given (t : T)
  | Parsed (r g b : Z).
Arguments Given {T} t.
Arguments Parsed {T} r g b.

(** [s.lstrip(chars)] *)
Fixpoint lstrip_chars (chars s : pystr) : pystr :=
  match s with
  | c :: s' => if bool_decide (c ∈ chars) then lstrip_chars chars s' else s
  | [] => []
  end.

(** [hex_to_rgb].  [int16] stands for the built-in [int(_, 16)], with
    [None] for its [ValueError]; [take 2 (drop i s)] is [s[i:i+2]] for the
    three indices 0, 2 and 4 of the source. *)
Definition hex_to_rgb {T} (int16 : pystr → option Z) (hex_str : colour T) : option (rgb T) :=
  match hex_str with
  | ColourTuple t => Some (Given t)
  | ColourString s =>
      let s := lstrip_chars [35] s in
      r ← int16 (take 2 (drop 0 s));
      g ← int16 (take 2 (drop 2 s));
      b ← int16 (take 2 (drop 4 s));
      Some (Parsed r g b)
  end.

(** The value of a hexadecimal digit of ASCII. *)
Definition hexval (c : Z) : option Z :=
  if bool_decide (48 ≤ c ≤ 57) then Some (c - 48)
  else if bool_decide (97 ≤ c ≤ 102) then Some (c - 87)
  else if bool_decide (65 ≤ c ≤ 70) then Some (c - 55)
  else None.

(** A function that reads two hexadecimal digits of ASCII as [int(_, 16)]
    does, and nothing else. *)
Definition two_hex_digits (s : pystr) : option Z :=
  match s with
  | [a; b] => x ← hexval a; y ← hexval b; Some (16 * x + y)
  | _ => None
  end.

(** ** Python lists at indices that are in range *)

Section python_lists.
Context {A : Type}.
Implicit Types (l : list A) (i k : Z) (x : A).

Lemma len_nonneg l : 0 ≤ Py.len l.
Proof. unfold Py.len. lia. Qed.

Lemma index_in_range l i :
  0 ≤ i < Py.len l → Py.index l i = Some (Z.to_nat i).
Proof. intros H. unfold Py.index. by rewrite bool_decide_eq_true_2. Qed.

Lemma get_nonneg l i : 0 ≤ i → Py.get l i = l !! Z.to_nat i.
Proof.
  intros Hi. unfold Py.get, Py.index, Py.len.
  repeat case_bool_decide; simpl; try done; try lia.
  symmetry. apply lookup_ge_None_2. lia.
Qed.

Lemma get_Some_range l i x :
  0 ≤ i → Py.get l i = Some x → i < Py.len l.
Proof.
  intros Hi. rewrite get_nonneg by done. intros H%lookup_lt_Some.
  unfold Py.len. lia.
Qed.

Lemma get_in_range l i : 0 ≤ i < Py.len l → is_Some (Py.get l i).
Proof.
  intros H. rewrite get_nonneg by lia. apply lookup_lt_is_Some_2.
  unfold Py.len in H. lia.
Qed.

Lemma set_in_range l i x :
  0 ≤ i < Py.len l → Py.set l i x = Some (<[Z.to_nat i := x]> l).
Proof. intros H. unfold Py.set. by rewrite index_in_range. Qed.

Lemma pop_in_range l i :
  0 ≤ i < Py.len l → Py.pop l i = Some (delete (Z.to_nat i) l).
Proof. intros H. unfold Py.pop. by rewrite index_in_range. Qed.

Lemma bound_nonneg l k : 0 ≤ k → Py.bound l k = Z.to_nat k.
Proof. intros H. unfold Py.bound. rewrite bool_decide_eq_false_2; [done | lia]. Qed.

Lemma len_insert_at l n x : Py.len (<[n := x]> l) = Py.len l.
Proof. unfold Py.len. by rewrite length_insert. Qed.

Lemma len_app l1 l2 : Py.len (l1 ++ l2) = Py.len l1 + Py.len l2.
Proof. unfold Py.len. rewrite length_app. lia. Qed.

Lemma len_upto l k : 0 ≤ k ≤ Py.len l → Py.len (Py.upto l k) = k.
Proof.
  intros H. unfold Py.upto. rewrite bound_nonneg by lia.
  unfold Py.len in *. rewrite length_take. lia.
Qed.

Lemma len_from l k : 0 ≤ k ≤ Py.len l → Py.len (Py.from l k) = Py.len l - k.
Proof.
  intros H. unfold Py.from. rewrite bound_nonneg by lia.
  unfold Py.len in *. rewrite length_drop. lia.
Qed.

Lemma len_py_insert l i x : Py.len (Py.insert l i x) = Py.len l + 1.
Proof.
  unfold Py.insert, Py.len. rewrite length_app. simpl.
  rewrite length_take, length_drop. lia.
Qed.

Lemma get_py_insert l i x :
  0 ≤ i ≤ Py.len l → Py.get (Py.insert l i x) i = Some x.
Proof.
  intros H. rewrite get_nonneg by lia. unfold Py.insert.
  rewrite bound_nonneg by lia. apply list_lookup_middle.
  unfold Py.len in H. rewrite length_take. lia.
Qed.

End python_lists.

(** ** Each operation keeps the cursor valid and returns *)

Lemma cursor_ok_nonempty s : cursor_ok s → buffer s ≠ [].
Proof.
  intros [Hy _] E. rewrite E in Hy. unfold Py.len in Hy. simpl in Hy. lia.
Qed.

Lemma insert_ok ch s :
  cursor_ok s → Py.len ch = 1 →
  ∃ s', insert ch s = Some s' ∧ cursor_ok s' ∧
        scroll_offset s' = scroll_offset s.
Proof.
  intros (Hy & line & Hl & Hx) Hch. unfold insert. rewrite Hl. simpl.
  rewrite set_in_range by done. simpl. eexists. split; [done |].
  split; [| done]. split; simpl.
  - by rewrite len_insert_at.
  - eexists. split.
    + rewrite get_nonneg by lia. apply list_lookup_insert_eq.
      unfold Py.len in Hy. lia.
    + rewrite !len_app, len_upto, len_from by done. lia.
Qed.

Lemma backspace_ok s :
  cursor_ok s →
  ∃ s', backspace s = Some s' ∧ cursor_ok s' ∧
        scroll_offset s' = scroll_offset s.
Proof.
  intros (Hy & line & Hl & Hx). unfold backspace.
  destruct (decide (cursor_x s > 0)) as [Hpos | Hzero].
  - rewrite Hl. simpl. rewrite set_in_range by done. simpl.
    eexists. split; [done |]. split; [| done]. split; simpl.
    + by rewrite len_insert_at.
    + eexists. split.
      * rewrite get_nonneg by lia. apply list_lookup_insert_eq.
        unfold Py.len in Hy. lia.
      * rewrite len_app, len_upto, len_from by lia. lia.
  - destruct (decide (cursor_y s > 0)) as [Hrow | Htop].
    + destruct (get_in_range (buffer s) (cursor_y s - 1)) as [prev Hprev]; [lia |].
      rewrite Hprev, Hl. simpl. rewrite set_in_range by lia. simpl.
      rewrite pop_in_range by (rewrite len_insert_at; lia). simpl.
      eexists. split; [done |]. split; [| done].
      assert (Hlen : (Z.to_nat (cursor_y s) < length (buffer s))%nat)
        by (unfold Py.len in Hy; lia).
      split; simpl.
      * unfold Py.len. rewrite length_delete, length_insert.
        -- unfold Py.len in Hy. lia.
        -- apply lookup_lt_is_Some_2. rewrite length_insert. lia.
      * exists (prev ++ line). split.
        -- rewrite get_nonneg by lia. rewrite list_lookup_delete_lt by lia.
           replace (Z.to_nat (cursor_y s - 1)) with (Z.to_nat (cursor_y s) - 1)%nat by lia.
           apply list_lookup_insert_eq. lia.
        -- rewrite len_app. pose proof (len_nonneg prev). pose proof (len_nonneg line). lia.
    + eexists. split; [done |]. split; [| done]. split; simpl; [done |].
      exists line. done.
Qed.

Lemma newline_ok s :
  cursor_ok s →
  ∃ s', newline s = Some s' ∧ cursor_ok s' ∧
        scroll_offset s' = scroll_offset s.
Proof.
  intros (Hy & line & Hl & Hx). unfold newline. rewrite Hl. simpl.
  rewrite set_in_range by done. simpl. eexists. split; [done |].
  split; [| done]. split; simpl.
  - rewrite len_py_insert, len_insert_at. lia.
  - eexists. split; [| split; [done | apply len_nonneg]].
    apply get_py_insert. rewrite len_insert_at. lia.
Qed.

Lemma clamp_column_ok s :
  0 ≤ cursor_y s < Py.len (buffer s) → 0 ≤ cursor_x s →
  ∃ s', (line ← Py.get (buffer s) (cursor_y s);
         Some (set_cursor_x (Z.min (cursor_x s) (Py.len line)) s)) = Some s' ∧
        cursor_ok s' ∧ scroll_offset s' = scroll_offset s ∧
        buffer s' = buffer s ∧ cursor_y s' = cursor_y s.
Proof.
  intros Hy Hx. destruct (get_in_range (buffer s) (cursor_y s)) as [l Hl]; [done |].
  rewrite Hl. simpl. eexists. split; [done |]. split; [| done].
  split; simpl; [done |]. exists l. split; [done |].
  pose proof (len_nonneg l). lia.
Qed.

Local Ltac returns_state :=
  eexists; split; [reflexivity |]; simpl;
  repeat split; try done; try lia; try apply len_nonneg.

Lemma move_cursor_ok k s :
  cursor_ok s →
  ∃ s', move_cursor k s = Some s' ∧ cursor_ok s' ∧
        scroll_offset s' = scroll_offset s.
Proof.
  intros (Hy & line & Hl & Hx). unfold move_cursor.
  match goal with |- ∃ s', (?m ≫= _) = _ ∧ _ => set (moved := m) end.
  assert (∃ s1, moved = Some s1 ∧ buffer s1 = buffer s ∧
                0 ≤ cursor_y s1 < Py.len (buffer s) ∧ 0 ≤ cursor_x s1 ∧
                scroll_offset s1 = scroll_offset s)
    as (s1 & -> & Hb & Hy1 & Hx1 & Hso).
  { subst moved. rewrite Hl. simpl.
    destruct (decide (k = Curses.KEY_UP ∧ cursor_y s > 0)); [returns_state |].
    destruct (decide (k = Curses.KEY_DOWN ∧ cursor_y s < Py.len (buffer s) - 1));
      [returns_state |].
    destruct (decide (k = Curses.KEY_LEFT)).
    { destruct (decide (cursor_x s > 0)); [returns_state |].
      destruct (decide (cursor_y s > 0)); [| returns_state].
      destruct (get_in_range (buffer s) (cursor_y s - 1)) as [l0 Hl0]; [lia |].
      rewrite Hl0. simpl. returns_state. }
    destruct (decide (k = Curses.KEY_RIGHT)); [| returns_state].
    destruct (decide (cursor_x s < Py.len line)); [returns_state |].
    destruct (decide (cursor_y s < Py.len (buffer s) - 1)); returns_state. }
  simpl. destruct (clamp_column_ok s1) as (s' & E & Hok & Hso' & _); [by rewrite Hb | done |].
  exists s'. split; [exact E |]. split; [done | congruence].
Qed.

Lemma click_ok i s :
  cursor_ok s →
  ∃ s', click i s = Some s' ∧ cursor_ok s' ∧
        scroll_offset s' = scroll_offset s.
Proof.
  intros Hok. unfold click. repeat case_decide; eauto.
  simpl. destruct (get_in_range (buffer s) (scroll_offset s + mouse_y i)) as [l Hl]; [done |].
  rewrite Hl. simpl. eexists. split; [done |]. split; [| done].
  split; simpl; [done |]. exists l. split; [done |].
  pose proof (len_nonneg l). lia.
Qed.

(** ** Rendering keeps the state valid and returns *)

Lemma draw_lines_ok s range :
  0 ≤ scroll_offset s → Forall (λ i, 0 ≤ i) range → draw_lines s range = Some ().
Proof.
  intros Hso. induction 1 as [| i range Hi _ IH]; simpl; [done |].
  case_decide; [done |].
  destruct (get_in_range (buffer s) (scroll_offset s + i)) as [l ->]; [lia |].
  exact IH.
Qed.

Lemma reconcile_offset_nonneg vh s :
  0 ≤ scroll_offset s → 0 ≤ scroll_offset (reconcile vh s).
Proof. intros H. unfold reconcile. simpl. repeat case_decide; lia. Qed.

Lemma reconcile_valid_row vh s :
  0 ≤ cursor_y s < Py.len (buffer s) →
  reconcile vh s = set_scroll_offset (scroll_offset (reconcile vh s)) s.
Proof.
  intros H. unfold reconcile. simpl.
  replace (Z.max 0 (Z.min (cursor_y s) (Py.len (buffer s) - 1))) with (cursor_y s) by lia.
  by destruct s.
Qed.

Lemma reconcile_viewport vh s :
  1 ≤ vh → 1 ≤ Py.len (buffer s) → 0 ≤ scroll_offset s →
  viewport_ok vh (reconcile vh s).
Proof.
  intros Hvh Hn Hso. unfold viewport_ok, reconcile. simpl.
  repeat case_decide; lia.
Qed.

Lemma draw_ok h s :
  inv s →
  draw h s = Some (set_scroll_offset (scroll_offset (reconcile (h - 1) s)) s) ∧
  inv (set_scroll_offset (scroll_offset (reconcile (h - 1) s)) s).
Proof.
  intros [(Hy & line & Hl & Hx) Hso].
  pose proof (reconcile_offset_nonneg (h - 1) s Hso) as Hso'.
  split.
  - unfold draw. rewrite draw_lines_ok; [| done |].
    + rewrite (reconcile_valid_row _ _ Hy). simpl. rewrite Hl. simpl.
      replace (Z.min (cursor_x s) (Py.len line)) with (cursor_x s) by lia.
      by destruct s.
    + apply Forall_seqZ. lia.
  - split; [| done]. split; [done |]. by exists line.
Qed.

(** ** The state between two reads is valid, and every read is handled *)

Lemma inv_same_view s s' : same_view s s' → inv s → inv s'.
Proof.
  intros (Hb & Hy & Hx & Hso). unfold inv, cursor_ok.
  by rewrite Hb, Hy, Hx, Hso.
Qed.

Lemma save_file_view s : same_view s (save_file s).
Proof. unfold save_file. by destruct (target (filepath s)). Qed.

Lemma main_exit_view s : same_view s (main_exit s).
Proof.
  unfold main_exit. destruct (target (filepath s)); [| done].
  destruct (unsaved s); [apply save_file_view | done].
Qed.

Lemma tick_view s : same_view s (tick s).
Proof. unfold tick. by repeat (case_decide; simpl). Qed.

Lemma handle_command_done_view s : same_view s (handle_command_done s).
Proof. done. Qed.

Lemma prompt_save_key_view k s : same_view s (prompt_save_key k s).2.
Proof.
  unfold prompt_save_key. repeat case_decide; simpl; try done.
  apply save_file_view.
Qed.

Lemma same_view_trans s1 s2 s3 : same_view s1 s2 → same_view s2 s3 → same_view s1 s3.
Proof. unfold same_view. intros (-> & -> & -> & ->) (-> & -> & -> & ->). done. Qed.

Lemma inv_of_cursor_ok s s0 :
  cursor_ok s → scroll_offset s = scroll_offset s0 → inv s0 → inv s.
Proof. intros Hok Hso [_ H0]. split; [done | by rewrite Hso]. Qed.

Lemma handle_command_ok h s :
  inv s → ∃ c' s', handle_command h s = Some (c', s') ∧ inv s'.
Proof.
  intros Hinv. unfold handle_command.
  destruct (decide (Py.strip (command_input s) = py "/")).
  { destruct (insert_ok (py "/") s) as (s1 & -> & Hok & Hso); [apply Hinv | done |].
    simpl. do 2 eexists. split; [done |].
    apply (inv_same_view s1); [apply handle_command_done_view |].
    by apply (inv_of_cursor_ok _ s). }
  destruct (decide (Py.strip (command_input s) = py "q")).
  { destruct (unsaved s); simpl.
    - set (s1 := set_status _ s).
      destruct (draw_ok h s1) as [-> Hd]; [by apply (inv_same_view s) |].
      simpl. eauto.
    - do 2 eexists. split; [done |].
      by apply (inv_same_view s); [apply main_exit_view |]. }
  destruct (decide (Py.strip (command_input s) = py "s")).
  { do 2 eexists. split; [done |]. apply (inv_same_view s); [| done].
    eapply same_view_trans; [apply save_file_view | apply handle_command_done_view]. }
  do 2 eexists. split; [done |]. by apply (inv_same_view s).
Qed.

Lemma dispatch_ok i s1 :
  inv s1 → ∃ c' s', dispatch i s1 = Some (c', s') ∧ inv s'.
Proof.
  intros H1. unfold dispatch.
  destruct (command_mode s1).
  { destruct (decide (key i ∈ [10; 13])); [by apply handle_command_ok |].
    repeat case_decide; do 2 eexists; (split; [done |]);
      by apply (inv_same_view s1). }
  destruct (decide (key i = 47)).
  { do 2 eexists. split; [done |]. by apply (inv_same_view s1). }
  destruct (decide (key i ∈ [Curses.KEY_BACKSPACE; 127])).
  { destruct (backspace_ok s1) as (s2 & -> & Hok & Hso); [apply H1 |].
    simpl. do 2 eexists. split; [done |]. by apply (inv_of_cursor_ok _ s1). }
  destruct (decide (key i = Curses.KEY_ENTER ∨ key i = 10)).
  { destruct (newline_ok s1) as (s2 & -> & Hok & Hso); [apply H1 |].
    simpl. do 2 eexists. split; [done |]. by apply (inv_of_cursor_ok _ s1). }
  destruct (decide (key i ∈ [Curses.KEY_UP; Curses.KEY_DOWN; Curses.KEY_LEFT; Curses.KEY_RIGHT])).
  { destruct (move_cursor_ok (key i) s1) as (s2 & -> & Hok & Hso); [apply H1 |].
    simpl. do 2 eexists. split; [done |]. by apply (inv_of_cursor_ok _ s1). }
  destruct (decide (key i = Curses.KEY_MOUSE)).
  { destruct (click_ok i s1) as (s2 & -> & Hok & Hso); [apply H1 |].
    simpl. do 2 eexists. split; [done |]. by apply (inv_of_cursor_ok _ s1). }
  destruct (decide (0 ≤ key i < 256)).
  { destruct (insert_ok [key i] s1) as (s2 & -> & Hok & Hso); [apply H1 | done |].
    simpl. do 2 eexists. split; [done |]. by apply (inv_of_cursor_ok _ s1). }
  eauto.
Qed.

Lemma main_round_ok i s :
  inv s → ∃ c' s', main_round i s = Some (c', s') ∧ inv s'.
Proof.
  intros Hinv. unfold main_round.
  destruct (draw_ok (rows i) s Hinv) as [-> Hd]. simpl.
  apply dispatch_ok. eapply inv_same_view; [apply tick_view | done].
Qed.

Lemma step_ok i c s :
  inv s → ∃ c' s', step i c s = Some (c', s') ∧ inv s'.
Proof.
  intros Hinv. destruct c; simpl.
  - by apply main_round_ok.
  - pose proof (prompt_save_key_view (key i) s) as Hv.
    destruct (prompt_save_key (key i) s) as [[r |] s1]; simpl in *.
    + destruct r; simpl; do 2 eexists; (split; [done |]).
      * eapply inv_same_view; [| exact Hinv].
        eapply same_view_trans; [exact Hv | apply main_exit_view].
      * eapply inv_same_view; [| exact Hinv].
        eapply same_view_trans; [exact Hv | apply handle_command_done_view].
    + do 2 eexists. split; [done |]. by eapply inv_same_view.
  - eauto.
Qed.

Lemma load_nonempty text : load text ≠ [].
Proof. unfold load. by destruct (Py.splitlines _). Qed.

Lemma init_inv fs fp : inv (init fs fp).
Proof.
  unfold init. set (b := match target fp with Some _ => _ | None => _ end).
  assert (Hb : b ≠ []).
  { subst b. destruct (target fp); [| done].
    destruct (fs !! _); [apply load_nonempty | done]. }
  destruct b as [| l b]; [done |].
  split; [| done]. split; simpl.
  - unfold Py.len. simpl. lia.
  - exists l. split; [done |]. pose proof (len_nonneg l). lia.
Qed.

Lemma run_ok ins : ∀ c s,
  inv s → ∃ c' s', run ins c s = Some (c', s') ∧ inv s'.
Proof.
  induction ins as [| i ins IH]; intros c s Hinv; simpl; [eauto |].
  destruct (step_ok i c s Hinv) as (c1 & s1 & -> & H1). by apply IH.
Qed.

(** ** The cursor (C1) and the buffer (C8) in every state of a session *)

(** C1.  Whatever the file system, the path argument and the inputs, the
    session handles every input (no index is out of range) and ends in a
    state whose cursor row is a row of the buffer,
    [0 ≤ cursor_y < len(buffer)], and whose cursor column is on or just
    after a character of that row,
    [0 ≤ cursor_x ≤ len(buffer[cursor_y])]. *)
Theorem cursor_valid_in_every_state (fs : gmap string pystr) (fp : option string) (ins : list input) :
  ∃ c s, run ins Running (init fs fp) = Some (c, s) ∧
         0 ≤ cursor_y s < Py.len (buffer s) ∧
         ∃ line, Py.get (buffer s) (cursor_y s) = Some line ∧
                 0 ≤ cursor_x s ≤ Py.len line.
Proof.
  destruct (run_ok ins Running (init fs fp) (init_inv fs fp)) as (c & s & E & Hok & _).
  exists c, s. split; [exact E | exact Hok].
Qed.

(** C8.  Whatever the file system, the path argument and the inputs, the
    buffer is created with at least one line (the lines of the file, or one
    empty line) and has at least one line after every input, be it an
    insertion, a delete-backward or a split. *)
Theorem buffer_never_empty (fs : gmap string pystr) (fp : option string) (ins : list input) :
  buffer (init fs fp) ≠ [] ∧
  ∃ c s, run ins Running (init fs fp) = Some (c, s) ∧
         buffer s ≠ [] ∧ 1 ≤ Py.len (buffer s).
Proof.
  split; [apply cursor_ok_nonempty, init_inv |].
  destruct (run_ok ins Running (init fs fp) (init_inv fs fp)) as (c & s & E & Hok & _).
  exists c, s. split; [exact E |]. split; [by apply cursor_ok_nonempty |].
  destruct Hok as [Hy _]. lia.
Qed.

(** ** The window after a render (C2) and rendering twice (C9) *)

(** C2, as amended.  On a terminal of at least two rows (a visible height
    of at least one), after the render of any state of a session the scroll
    offset satisfies [0 ≤ scroll_offset ≤ max(0, len(buffer) − visible_height)]
    and the cursor row is in the window,
    [scroll_offset ≤ cursor_y < scroll_offset + visible_height]. *)
Theorem cursor_in_window_after_draw
    (fs : gmap string pystr) (fp : option string) (ins : list input) (h : Z) :
  2 ≤ h →
  ∃ c s s', run ins Running (init fs fp) = Some (c, s) ∧
            draw h s = Some s' ∧
            0 ≤ scroll_offset s' ≤ Z.max 0 (Py.len (buffer s') - (h - 1)) ∧
            scroll_offset s' ≤ cursor_y s' < scroll_offset s' + (h - 1).
Proof.
  intros Hh.
  destruct (run_ok ins Running (init fs fp) (init_inv fs fp)) as (c & s & E & Hinv).
  destruct (draw_ok h s Hinv) as [Ed _].
  exists c, s. eexists. split; [exact E |]. split; [exact Ed |].
  destruct Hinv as [[Hy _] Hso].
  pose proof (reconcile_viewport (h - 1) s) as Hv.
  rewrite (reconcile_valid_row _ _ Hy) in Hv. apply Hv; lia.
Qed.

(** C2 as amended, on a terminal of 24 rows after typing "ab" into a fresh
    buffer. *)
Lemma cursor_in_window_after_draw_witness :
  ∃ c s s', run (typing 24 (py "ab")) Running (init ∅ None) = Some (c, s) ∧
            draw 24 s = Some s' ∧
            0 ≤ scroll_offset s' ≤ Z.max 0 (Py.len (buffer s') - (24 - 1)) ∧
            scroll_offset s' ≤ cursor_y s' < scroll_offset s' + (24 - 1).
Proof. apply (cursor_in_window_after_draw ∅ None (typing 24 (py "ab")) 24). lia. Defined.

(** C2 as stated fails on a terminal of one row: the visible height is 0,
    and the first render of a fresh session leaves the scroll offset at 1,
    below the cursor row 0. *)
Lemma cursor_outside_window_on_one_row :
  run [] Running (init ∅ None) = Some (Running, init ∅ None) ∧
  ∃ s', draw 1 (init ∅ None) = Some s' ∧
        scroll_offset s' = 1 ∧ cursor_y s' = 0 ∧
        ¬ (scroll_offset s' ≤ cursor_y s' < scroll_offset s' + (1 - 1)).
Proof.
  split; [reflexivity |]. eexists. split; [reflexivity |]. simpl.
  split; [reflexivity |]. split; [reflexivity |]. lia.
Qed.

(** C9, as amended.  For every buffer, cursor and scroll offset, and every
    visible height of at least one, the clamping of [draw] applied to its
    own result changes nothing. *)
Theorem reconcile_idempotent (visible_height : Z) (s : TinyconfEditor) :
  1 ≤ visible_height →
  reconcile visible_height (reconcile visible_height s) = reconcile visible_height s.
Proof.
  intros Hvh. unfold reconcile. simpl.
  pose proof (len_nonneg (buffer s)) as Hn.
  set (n := Py.len (buffer s)) in *.
  set (cy := Z.max 0 (Z.min (cursor_y s) (n - 1))).
  set (so1 := Z.min (scroll_offset s) (Z.max 0 (n - visible_height))).
  set (so2 := if decide (cy < so1) then cy
              else if decide (cy >= so1 + visible_height) then cy - visible_height + 1
              else so1).
  assert (Hcy : Z.max 0 (Z.min cy (n - 1)) = cy) by lia.
  assert (Hso : Z.min so2 (Z.max 0 (n - visible_height)) = so2)
    by (subst so2; repeat case_decide; lia).
  rewrite Hcy, Hso.
  assert (Hstay : (if decide (cy < so2) then cy
                   else if decide (cy >= so2 + visible_height) then cy - visible_height + 1
                   else so2) = so2)
    by (subst so2; repeat case_decide; lia).
  by rewrite Hstay.
Qed.

(** C9 as amended, at visible height 23 with the cursor row and the scroll
    offset both outside the buffer of one line. *)
Lemma reconcile_idempotent_witness :
  reconcile 23 (reconcile 23 (set_cursor_y 40 (set_scroll_offset 7 (init ∅ None)))) =
  reconcile 23 (set_cursor_y 40 (set_scroll_offset 7 (init ∅ None))).
Proof. apply reconcile_idempotent. lia. Defined.

(** C9 as stated fails for the visible height 0 of a terminal of one row:
    on the buffer of one empty line with cursor row 0 and scroll offset 0,
    the first clamping sets the offset to 1 and the second sets it back
    to 0. *)
Lemma reconcile_not_idempotent_at_height_0 :
  scroll_offset (reconcile 0 (init ∅ None)) = 1 ∧
  scroll_offset (reconcile 0 (reconcile 0 (init ∅ None))) = 0 ∧
  reconcile 0 (reconcile 0 (init ∅ None)) ≠ reconcile 0 (init ∅ None).
Proof. split; [reflexivity |]. split; [reflexivity |]. discriminate. Qed.

(** ** Delete-backward (C6, C7) *)

Lemma backspace_at_origin s :
  cursor_x s ≤ 0 → cursor_y s ≤ 0 → backspace s = Some (set_unsaved true s).
Proof.
  intros Hx Hy. unfold backspace.
  rewrite decide_False by lia. rewrite decide_False by lia. done.
Qed.

(** C6 on the code.  On the buffer ["ab"] with the cursor at (0, 0) and no
    unsaved change, delete-backward leaves the buffer and the cursor as they
    were and sets the dirty flag: the assignment [self.unsaved = True] at the
    end of [backspace] is outside the two guarded branches. *)
Theorem backspace_at_origin_sets_unsaved :
  let s := init {[ "f" := py "ab" ]} (Some "f") in
  buffer s = [py "ab"] ∧ cursor_y s = 0 ∧ cursor_x s = 0 ∧ unsaved s = false ∧
  ∃ s', backspace s = Some s' ∧
        buffer s' = buffer s ∧ cursor_y s' = cursor_y s ∧
        cursor_x s' = cursor_x s ∧ unsaved s' = true.
Proof. simpl. repeat split. eexists. split; [reflexivity |]. done. Qed.

Lemma delete_after_merge {A} (l : list (list A)) (n : nat) (p c : list A) :
  l !! n = Some p → l !! S n = Some c →
  delete (S n) (<[n := p ++ c]> l) = take n l ++ (p ++ c) :: drop (S (S n)) l.
Proof.
  revert l. induction n as [| n IH]; intros l Hp Hc.
  - destruct l as [| a [| b l]]; simplify_eq/=. done.
  - destruct l as [| a l]; simplify_eq/=. f_equal. by apply IH.
Qed.

(** C7.  With the cursor at column 0 of a row [row > 0], delete-backward
    appends that row to row [row − 1], removes it, and puts the cursor at
    row [row − 1], at the column that was the length of row [row − 1]. *)
Theorem backspace_merges_lines (s : TinyconfEditor) (prev cur : pystr) :
  cursor_x s = 0 → 0 < cursor_y s →
  Py.get (buffer s) (cursor_y s - 1) = Some prev →
  Py.get (buffer s) (cursor_y s) = Some cur →
  ∃ s', backspace s = Some s' ∧
        buffer s' = take (Z.to_nat (cursor_y s - 1)) (buffer s)
                    ++ (prev ++ cur) :: drop (Z.to_nat (cursor_y s + 1)) (buffer s) ∧
        Py.len (buffer s') = Py.len (buffer s) - 1 ∧
        cursor_y s' = cursor_y s - 1 ∧ cursor_x s' = Py.len prev.
Proof.
  intros Hx Hy Hprev Hcur. unfold backspace.
  rewrite decide_False by lia. rewrite decide_True by lia.
  pose proof (get_Some_range (buffer s) (cursor_y s) cur ltac:(lia) Hcur) as Hlen.
  rewrite Hprev, Hcur. simpl.
  rewrite set_in_range by lia. simpl.
  rewrite pop_in_range by (rewrite len_insert_at; lia). simpl.
  eexists. split; [reflexivity |]. simpl.
  rewrite get_nonneg in Hprev, Hcur by lia.
  replace (Z.to_nat (cursor_y s)) with (S (Z.to_nat (cursor_y s - 1))) in * by lia.
  replace (Z.to_nat (cursor_y s + 1)) with (S (S (Z.to_nat (cursor_y s - 1)))) by lia.
  rewrite (delete_after_merge _ _ _ _ Hprev Hcur).
  split; [done |]. split; [| done].
  apply lookup_lt_Some in Hcur. unfold Py.len in *.
  rewrite length_app. simpl. rewrite length_take, length_drop. lia.
Qed.

(** The scenario of C7: ["ab", "cd"] with the cursor at (1, 0) becomes
    ["abcd"] with the cursor at (0, 2). *)
Lemma backspace_merges_lines_witness :
  let s := set_cursor_y 1 (init {[ "f" := py "ab" ++ [10] ++ py "cd" ]} (Some "f")) in
  buffer s = [py "ab"; py "cd"] ∧ cursor_y s = 1 ∧ cursor_x s = 0 ∧
  ∃ s', backspace s = Some s' ∧
        buffer s' = [py "abcd"] ∧ cursor_y s' = 0 ∧ cursor_x s' = 2.
Proof.
  intros s. repeat split.
  destruct (backspace_merges_lines s (py "ab") (py "cd")) as (s' & E & Hb & _ & Hy & Hx);
    [reflexivity | reflexivity | reflexivity | reflexivity |].
  exists s'. split; [exact E |]. split; [exact Hb |]. split; [exact Hy | exact Hx].
Defined.

(** ** Cursor movement (C10) *)

(** C10.  Whatever the key and the state, a call of [move_cursor] that
    returns has changed nothing but the cursor position: the buffer, the
    dirty flag and every other field are as before.  And it does return
    whenever the cursor is valid. *)
Theorem move_cursor_never_edits (k : Z) (s : TinyconfEditor) :
  (∀ s', move_cursor k s = Some s' →
         buffer s' = buffer s ∧ unsaved s' = unsaved s ∧ only_cursor_differs s s') ∧
  (cursor_ok s → ∃ s', move_cursor k s = Some s' ∧ cursor_ok s').
Proof.
  split.
  - intros s' H. unfold move_cursor in H.
    match type of H with (?m ≫= _) = _ => destruct m as [s1 |] eqn:E1 end;
      [| done]. simpl in H.
    assert (H1 : only_cursor_differs s s1).
    { repeat case_decide; simplify_option_eq; try done;
        repeat case_decide; simplify_option_eq; done. }
    clear E1. destruct (Py.get (buffer s1) (cursor_y s1)); simplify_eq/=.
    destruct H1 as (? & ? & ? & ? & ? & ? & ? & ? & ? & ? & ?).
    by repeat split.
  - intros Hok. destruct (move_cursor_ok k s Hok) as (s' & E & Hok' & _). eauto.
Qed.

(** The four arrow keys on ["ab", "cd"] with the cursor at (0, 0): each
    call returns with the buffer and the dirty flag untouched. *)
Lemma move_cursor_never_edits_witness :
  Forall (λ k, ∃ s', move_cursor k (init {[ "f" := py "ab" ++ [10] ++ py "cd" ]} (Some "f"))
                       = Some s' ∧
                     buffer s' = [py "ab"; py "cd"] ∧ unsaved s' = false)
         [Curses.KEY_UP; Curses.KEY_DOWN; Curses.KEY_LEFT; Curses.KEY_RIGHT].
Proof.
  set (s := init {[ "f" := py "ab" ++ [10] ++ py "cd" ]} (Some "f")).
  assert (Hok : cursor_ok s).
  { split; [done |]. exists (py "ab"). split; [reflexivity | done]. }
  assert (Hone : ∀ k, ∃ s', move_cursor k s = Some s' ∧
                            buffer s' = [py "ab"; py "cd"] ∧ unsaved s' = false).
  { intros k. destruct (move_cursor_never_edits k s) as [Hframe Hret].
    destruct (Hret Hok) as (s' & E & _).
    exists s'. split; [exact E |].
    destruct (Hframe s' E) as (Hb & Hu & _). by rewrite Hb, Hu. }
  repeat (constructor; [apply Hone |]). constructor.
Defined.

(** ** The save command (C4) and quitting (C3) *)

Lemma draw_document h s s' : draw h s = Some s' → same_document s s'.
Proof.
  unfold draw. intros H.
  destruct (draw_lines _ _); simpl in H; [| done].
  destruct (Py.get _ _); simplify_eq/=. done.
Qed.

Lemma tick_document s : same_document s (tick s).
Proof. unfold tick. by repeat (case_decide; simpl). Qed.

(** A round of [main] on a valid state comes down to the handling of the
    key on a valid state with the same document. *)
Lemma main_round_from_valid i s :
  inv s →
  ∃ d, main_round i s = dispatch i d ∧ inv d ∧ same_document s d.
Proof.
  intros Hinv. unfold main_round. destruct (draw_ok (rows i) s Hinv) as [E Hd].
  rewrite E. set (d := set_scroll_offset _ s) in *.
  exists (tick d). split; [reflexivity |]. split.
  - eapply inv_same_view; [apply tick_view | done].
  - pose proof (draw_document _ _ _ E) as (? & ? & ? & ? & ? & ? & ?).
    pose proof (tick_document d) as (? & ? & ? & ? & ? & ? & ?).
    unfold same_document. repeat split; congruence.
Qed.

Lemma handle_command_save h s :
  Py.strip (command_input s) = py "s" →
  handle_command h s = Some (Running, handle_command_done (save_file s)).
Proof. intros H. unfold handle_command. rewrite H. done. Qed.

Lemma save_file_with_target s p :
  target (filepath s) = Some p →
  writes (save_file s) = (p, Py.join [10] (buffer s)) :: writes s ∧
  files (save_file s) = <[p := Py.join [10] (buffer s)]> (files s) ∧
  unsaved (save_file s) = false ∧ buffer (save_file s) = buffer s ∧
  filepath (save_file s) = filepath s.
Proof. intros H. unfold save_file. rewrite H. done. Qed.

Lemma save_file_without_target s :
  target (filepath s) = None → save_file s = s.
Proof. intros H. unfold save_file. by rewrite H. Qed.

Lemma dispatch_slash i s :
  command_mode s = false → key i = 47 →
  dispatch i s = Some (Running, set_command_input [] (set_command_mode true s)).
Proof. intros Hm K. unfold dispatch. rewrite Hm, K. done. Qed.

Lemma dispatch_command_char i s :
  command_mode s = true → key i = 115 →
  dispatch i s = Some (Running, set_command_input (command_input s ++ [115]) s).
Proof. intros Hm K. unfold dispatch. rewrite Hm, K. done. Qed.

Lemma dispatch_command_enter i s :
  command_mode s = true → key i ∈ [10; 13] →
  dispatch i s = handle_command (rows i) s.
Proof. intros Hm K. unfold dispatch. rewrite Hm. by rewrite decide_True. Qed.

Lemma save_command_from_valid_state (s : TinyconfEditor) (i1 i2 i3 : input) :
  inv s → command_mode s = false →
  key i1 = 47 → key i2 = 115 → key i3 ∈ [10; 13] →
  ∃ d, run [i1; i2; i3] Running s = Some (Running, handle_command_done (save_file d)) ∧
       buffer d = buffer s ∧ filepath d = filepath s ∧
       files d = files s ∧ writes d = writes s.
Proof.
  intros Hinv Hmode K1 K2 K3. simpl.
  destruct (main_round_from_valid i1 s Hinv) as (d1 & -> & Hinv1 & Hdoc1).
  destruct Hdoc1 as (Hb1 & Hf1 & Hu1 & Hm1 & Hc1 & Hfs1 & Hw1).
  rewrite dispatch_slash by congruence. simpl.
  set (s2 := set_command_input [] (set_command_mode true d1)).
  assert (Hinv2 : inv s2) by (by apply (inv_same_view d1)).
  destruct (main_round_from_valid i2 s2 Hinv2) as (d2 & -> & Hinv3 & Hdoc2).
  destruct Hdoc2 as (Hb2 & Hf2 & Hu2 & Hm2 & Hc2 & Hfs2 & Hw2).
  rewrite dispatch_command_char by done. simpl.
  set (s3 := set_command_input (command_input d2 ++ [115]) d2).
  assert (Hinv4 : inv s3) by (by apply (inv_same_view d2)).
  destruct (main_round_from_valid i3 s3 Hinv4) as (d3 & -> & Hinv5 & Hdoc3).
  destruct Hdoc3 as (Hb3 & Hf3 & Hu3 & Hm3 & Hc3 & Hfs3 & Hw3).
  assert (Hmode3 : command_mode d3 = true) by (by rewrite Hm3; simpl; rewrite Hm2).
  assert (Hcmd3 : command_input d3 = [115]) by (by rewrite Hc3; simpl; rewrite Hc2).
  rewrite dispatch_command_enter by done.
  rewrite handle_command_save by (by rewrite Hcmd3).
  exists d3. split; [reflexivity |].
  subst s2 s3. simpl in *. repeat split; congruence.
Qed.

Lemma session_state_valid fs fp ins c s :
  run ins Running (init fs fp) = Some (c, s) → inv s.
Proof.
  intros E.
  destruct (run_ok ins Running (init fs fp) (init_inv fs fp)) as (c' & s' & E' & Hinv).
  congruence.
Qed.

(** C4, as amended.  In any state of a session that is not in command entry
    and has a file target, the keys [/], [s] and Enter (line feed or
    carriage return) run the save command: the lines of the buffer, joined
    by single line feeds, are written to the target, the dirty flag is
    cleared, and the editor is back in normal mode with the same buffer. *)
Theorem save_command_saves
    (fs : gmap string pystr) (fp : option string) (ins : list input)
    (s : TinyconfEditor) (i1 i2 i3 : input) (p : string) :
  run ins Running (init fs fp) = Some (Running, s) →
  command_mode s = false → target (filepath s) = Some p →
  key i1 = 47 → key i2 = 115 → key i3 ∈ [10; 13] →
  ∃ s', run [i1; i2; i3] Running s = Some (Running, s') ∧
        writes s' = (p, Py.join [10] (buffer s)) :: writes s ∧
        files s' = <[p := Py.join [10] (buffer s)]> (files s) ∧
        unsaved s' = false ∧ buffer s' = buffer s ∧ command_mode s' = false.
Proof.
  intros Hrun Hmode Hp K1 K2 K3.
  pose proof (session_state_valid _ _ _ _ _ Hrun) as Hinv.
  destruct (save_command_from_valid_state s i1 i2 i3 Hinv Hmode K1 K2 K3)
    as (d & E & Hb & Hf & Hfs & Hw).
  eexists. split; [exact E |].
  destruct (save_file_with_target d p) as (Hw' & Hfs' & Hu' & Hb' & _);
    [by rewrite Hf |].
  simpl. rewrite Hw', Hfs', Hu', Hb', Hb, Hfs, Hw. done.
Qed.

(** The scenario of C4 with the command the code knows: after typing "ab"
    into the file "f", the keys [/], [s], Enter write "ab" to "f". *)
Lemma save_command_saves_witness :
  ∃ s, run (typing 24 (py "ab")) Running (init {[ "f" := [] ]} (Some "f")) = Some (Running, s) ∧
       unsaved s = true ∧
       ∃ s', run (typing 24 (py "/s" ++ [10])) Running s = Some (Running, s') ∧
             writes s' = [("f", py "ab")] ∧ unsaved s' = false.
Proof.
  eexists. split; [vm_compute; reflexivity |]. split; [reflexivity |].
  match goal with
  | |- ∃ s', run _ Running ?s = _ ∧ _ =>
      destruct (save_command_saves {[ "f" := [] ]} (Some "f") (typing 24 (py "ab")) s
                  (Input 24 47 0 0) (Input 24 115 0 0) (Input 24 10 0 0) "f")
        as (s' & E & Hw & _ & Hu & _);
        [vm_compute; reflexivity | reflexivity | vm_compute; reflexivity
        | reflexivity | reflexivity | by constructor |]
  end.
  exists s'. split; [exact E |]. split; [exact Hw | exact Hu].
Defined.

(** C4 as stated fails: the word "save" is not a command of
    [handle_command].  After typing "a" into the file "f", the keys [/],
    "save", Enter write nothing and leave the dirty flag set. *)
Lemma save_word_is_discarded :
  ∃ s, run (typing 24 (py "a/save" ++ [10])) Running (init {[ "f" := [] ]} (Some "f"))
         = Some (Running, s) ∧
       writes s = [] ∧ files s !! "f" = Some [] ∧ unsaved s = true ∧
       command_mode s = false.
Proof. eexists. split; [vm_compute; reflexivity |]. by vm_compute. Qed.

Lemma prompt_n_saves_anyway (i : input) (s : TinyconfEditor) (p : string) :
  key i ∈ [110; 78] → target (filepath s) = Some p → unsaved s = true →
  step i Prompting s = Some (Exited, save_file s) ∧
  writes (save_file s) = (p, Py.join [10] (buffer s)) :: writes s.
Proof.
  intros K Hp Hu. split; [| by apply save_file_with_target].
  assert (key i = 110 ∨ key i = 78) as [E | E].
  { apply elem_of_cons in K as [K | K]; [by left |].
    apply elem_of_cons in K as [K | K]; [by right |].
    by apply elem_of_nil in K. }
  all: simpl; unfold prompt_save_key; rewrite E; simpl.
  all: unfold main_exit; by rewrite Hp, Hu.
Qed.

(** C3 on the code.  In a session on the file "f", after typing "a", the
    quit command [/], [q], Enter opens the confirmation with nothing
    written; the answer [n] then ends the session, and on the way out
    [main] finds the dirty flag still set and calls [save_file], which
    writes "a" to "f". *)
Theorem quit_with_n_still_saves :
  ∃ s1 s2,
    run (typing 24 (py "a/q" ++ [10])) Running (init {[ "f" := [] ]} (Some "f"))
      = Some (Prompting, s1) ∧
    unsaved s1 = true ∧ writes s1 = [] ∧
    run (typing 24 (py "n")) Prompting s1 = Some (Exited, s2) ∧
    writes s2 = [("f", py "a")] ∧ files s2 !! "f" = Some (py "a").
Proof.
  do 2 eexists. split; [vm_compute; reflexivity |]. split; [reflexivity |].
  split; [reflexivity |]. split; [vm_compute; reflexivity |]. by vm_compute.
Qed.

(** ** Saving and loading again (C5) *)

Lemma plain_no_cr line : plain line → Forall (λ c, c ≠ 13) line.
Proof.
  intros Hp. eapply Forall_impl; [exact Hp |].
  intros c Hc ->. by vm_compute in Hc.
Qed.

Lemma join_no_cr buf :
  Forall plain buf → Forall (λ c, c ≠ 13) (Py.join [10] buf).
Proof.
  induction 1 as [| l buf Hl Hbuf IH]; [constructor |].
  destruct buf as [| l2 buf]; simpl; [by apply plain_no_cr |].
  apply Forall_app. split; [by apply plain_no_cr |].
  constructor; [done | exact IH].
Qed.

Lemma universal_newlines_no_cr text :
  Forall (λ c, c ≠ 13) text → Py.universal_newlines text = text.
Proof.
  induction 1 as [| c text Hc _ IH]; simpl; [done |].
  rewrite bool_decide_eq_false_2 by done. by rewrite IH.
Qed.

Lemma splitlines_from_plain line : ∀ cur rest,
  plain line →
  Py.splitlines_from false cur (line ++ rest) = Py.splitlines_from false (cur ++ line) rest.
Proof.
  induction line as [| c line IH]; intros cur rest Hp; simpl.
  - by rewrite app_nil_r.
  - inversion Hp as [| ? ? Hc Hline]; subst. rewrite Hc.
    rewrite IH by done. by rewrite <- app_assoc.
Qed.

Lemma splitlines_from_lf cur rest :
  Py.splitlines_from false cur (10 :: rest) = cur :: Py.splitlines_from false [] rest.
Proof. reflexivity. Qed.

Lemma splitlines_join buf :
  Forall plain buf → Py.splitlines (Py.join [10] buf) = without_final_blank buf.
Proof.
  unfold Py.splitlines.
  induction 1 as [| l buf Hl Hbuf IH]; [done |].
  destruct buf as [| l2 buf].
  - simpl. rewrite <- (app_nil_r l) at 1. rewrite splitlines_from_plain by done.
    simpl. by destruct l.
  - change (Py.join [10] (l :: l2 :: buf)) with (l ++ 10 :: Py.join [10] (l2 :: buf)).
    rewrite splitlines_from_plain by done. rewrite splitlines_from_lf.
    rewrite IH. done.
Qed.

Lemma without_final_blank_keeps buf :
  last buf ≠ Some [] → without_final_blank buf = buf.
Proof.
  induction buf as [| l buf IH]; [done |].
  destruct buf as [| l2 buf]; simpl.
  - intros H. destruct l; [by destruct H | done].
  - intros H. f_equal. by apply IH.
Qed.

Lemma without_final_blank_drops buf :
  last buf = Some [] → length buf = S (length (without_final_blank buf)).
Proof.
  induction buf as [| l buf IH]; [done |].
  destruct buf as [| l2 buf]; simpl.
  - by intros [= ->].
  - intros H. f_equal. by apply IH.
Qed.

Lemma load_join buf :
  buf ≠ [] → Forall plain buf →
  load (Py.join [10] buf) = buf ↔ last buf ≠ Some [] ∨ buf = [[]].
Proof.
  intros Hne Hp. unfold load, read_file.
  rewrite universal_newlines_no_cr by (by apply join_no_cr).
  rewrite splitlines_join by done. split.
  - intros E. destruct (decide (last buf = Some [])) as [Hlast | Hlast]; [| by left].
    right. pose proof (without_final_blank_drops buf Hlast) as Hlen.
    destruct (without_final_blank buf) as [| l ls]; [by rewrite <- E |].
    rewrite <- E in Hlen. simpl in Hlen. lia.
  - intros [Hlast | ->]; [| done].
    rewrite without_final_blank_keeps by done. by destruct buf.
Qed.

(** C5, as amended.  [save_file] writes the lines joined by single line
    feeds, with nothing after the last line.  For a buffer of at least one
    line, none containing a character at which [splitlines] breaks, loading
    the saved file gives back the same lines exactly when the last line is
    not empty or the buffer is the single empty line. *)
Theorem save_then_load (s : TinyconfEditor) (p : string) :
  target (filepath s) = Some p → buffer s ≠ [] → Forall plain (buffer s) →
  files (save_file s) !! p = Some (Py.join [10] (buffer s)) ∧
  (buffer (init (files (save_file s)) (filepath s)) = buffer s
   ↔ last (buffer s) ≠ Some [] ∨ buffer s = [[]]).
Proof.
  intros Hp Hne Hplain.
  destruct (save_file_with_target s p Hp) as (_ & Hfs & _).
  assert (Hfile : files (save_file s) !! p = Some (Py.join [10] (buffer s)))
    by (rewrite Hfs; apply lookup_insert_eq).
  split; [exact Hfile |].
  unfold init. simpl. rewrite Hp, Hfile. by apply load_join.
Qed.

(** Saving ["ab", "cd"] to "f" and loading "f" gives ["ab", "cd"]. *)
Lemma save_then_load_witness :
  let s := init {[ "f" := py "ab" ++ [10] ++ py "cd" ]} (Some "f") in
  buffer s = [py "ab"; py "cd"] ∧
  files (save_file s) !! "f" = Some (py "ab" ++ [10] ++ py "cd") ∧
  buffer (init (files (save_file s)) (filepath s)) = buffer s.
Proof.
  intros s. split; [reflexivity |].
  destruct (save_then_load s "f") as [Hfile Hiff];
    [reflexivity | discriminate | by repeat constructor |].
  split; [exact Hfile |]. apply Hiff. left. discriminate.
Defined.

(** C5 as stated fails for a buffer that ends in an empty line: typing "a"
    and Enter into the file "f" gives the lines ["a", ""], which are saved
    as "a" followed by one line feed and loaded as ["a"]. *)
Lemma final_empty_line_not_loaded :
  ∃ s, run (typing 24 [97; 10]) Running (init {[ "f" := [] ]} (Some "f")) = Some (Running, s) ∧
       buffer s = [[97]; []] ∧ Forall plain (buffer s) ∧
       files (save_file s) !! "f" = Some [97; 10] ∧
       buffer (init (files (save_file s)) (filepath s)) = [[97]] ∧
       buffer (init (files (save_file s)) (filepath s)) ≠ buffer s.
Proof.
  eexists. split; [vm_compute; reflexivity |]. split; [reflexivity |].
  split; [by repeat constructor |]. split; [by vm_compute |].
  split; [by vm_compute |]. by vm_compute.
Qed.

(** ** The buffer around the cursor *)

Lemma cursor_ok_at s :
  cursor_ok s → ∃ pre line post k, at_cursor s pre line post k.
Proof.
  intros (Hy & line & Hl & Hx). rewrite get_nonneg in Hl by lia.
  exists (take (Z.to_nat (cursor_y s)) (buffer s)), line,
         (drop (S (Z.to_nat (cursor_y s))) (buffer s)), (Z.to_nat (cursor_x s)).
  split; [by rewrite take_drop_middle |].
  apply lookup_lt_Some in Hl as Hlt. rewrite length_take_le by lia.
  unfold Py.len in Hx. repeat split; lia.
Qed.

Lemma at_cursor_ok s pre line post k : at_cursor s pre line post k → cursor_ok s.
Proof.
  intros (Hb & Hy & Hx & Hk). unfold cursor_ok. rewrite Hb, Hy, Hx.
  split; [unfold Py.len; rewrite length_app; simpl; lia |].
  exists line. split.
  - rewrite get_nonneg by lia. rewrite Nat2Z.id. by apply list_lookup_middle.
  - unfold Py.len. lia.
Qed.

Section around_cursor.
Context (s : TinyconfEditor) (pre : list pystr) (line : pystr)
        (post : list pystr) (k : nat).
Hypothesis Hat : at_cursor s pre line post k.

Lemma at_cursor_row : Z.to_nat (cursor_y s) = length pre.
Proof. destruct Hat as (_ & -> & _). apply Nat2Z.id. Qed.

Lemma at_cursor_column : Z.to_nat (cursor_x s) = k.
Proof. destruct Hat as (_ & _ & -> & _). apply Nat2Z.id. Qed.

Lemma at_cursor_get : Py.get (buffer s) (cursor_y s) = Some line.
Proof.
  destruct Hat as (Hb & Hy & _). rewrite get_nonneg by lia.
  rewrite at_cursor_row, Hb. by apply list_lookup_middle.
Qed.

Lemma at_cursor_set x : Py.set (buffer s) (cursor_y s) x = Some (pre ++ x :: post).
Proof.
  destruct Hat as (Hb & Hy & _).
  rewrite set_in_range by (rewrite Hb, Hy; unfold Py.len; rewrite length_app; simpl; lia).
  rewrite at_cursor_row, Hb.
  rewrite insert_app_r_alt by done. by rewrite Nat.sub_diag.
Qed.

Lemma at_cursor_upto : Py.upto line (cursor_x s) = take k line.
Proof.
  destruct Hat as (_ & _ & Hx & _). unfold Py.upto.
  rewrite bound_nonneg by lia. by rewrite at_cursor_column.
Qed.

Lemma at_cursor_from : Py.from line (cursor_x s) = drop k line.
Proof.
  destruct Hat as (_ & _ & Hx & _). unfold Py.from.
  rewrite bound_nonneg by lia. by rewrite at_cursor_column.
Qed.

Lemma at_cursor_current_line : current_line s = line.
Proof.
  destruct Hat as (Hb & _). unfold current_line.
  rewrite at_cursor_row, Hb. by rewrite list_lookup_middle.
Qed.

Lemma text_before_at :
  text_before s = concat ((λ l, l ++ [10]) <$> pre) ++ take k line.
Proof.
  unfold text_before. rewrite at_cursor_current_line, at_cursor_row, at_cursor_column.
  destruct Hat as (-> & _). by rewrite take_app_length.
Qed.

Lemma text_after_at :
  text_after s = drop k line ++ concat ((λ l, 10 :: l) <$> post).
Proof.
  unfold text_after. rewrite at_cursor_current_line, at_cursor_row, at_cursor_column.
  destruct Hat as (-> & _).
  rewrite cons_middle, app_assoc.
  by rewrite drop_app_length' by (rewrite length_app; simpl; lia).
Qed.

End around_cursor.

Lemma join_first (line : pystr) (post : list pystr) :
  Py.join [10] (line :: post) = line ++ concat ((λ l, 10 :: l) <$> post).
Proof.
  revert line. induction post as [| l2 post IH]; intros line.
  - simpl. by rewrite app_nil_r.
  - change (Py.join [10] (line :: l2 :: post)) with (line ++ 10 :: Py.join [10] (l2 :: post)).
    by rewrite IH.
Qed.

Lemma join_around (pre : list pystr) (line : pystr) (post : list pystr) :
  Py.join [10] (pre ++ line :: post) =
  concat ((λ l, l ++ [10]) <$> pre) ++ line ++ concat ((λ l, 10 :: l) <$> post).
Proof.
  induction pre as [| l pre IH]; [apply join_first |].
  change ((l :: pre) ++ line :: post) with (l :: (pre ++ line :: post)).
  destruct (pre ++ line :: post) as [| l2 rest] eqn:E; [by destruct pre |].
  change (Py.join [10] (l :: l2 :: rest)) with (l ++ 10 :: Py.join [10] (l2 :: rest)).
  rewrite IH. rewrite fmap_cons, concat_cons. by rewrite <- !app_assoc.
Qed.

Lemma document_at s pre line post k :
  at_cursor s pre line post k → document s = text_before s ++ text_after s.
Proof.
  intros Hat. rewrite (text_before_at _ _ _ _ _ Hat), (text_after_at _ _ _ _ _ Hat).
  unfold document. destruct Hat as (-> & _). rewrite join_around.
  rewrite <- app_assoc. f_equal. rewrite app_assoc. by rewrite take_drop.
Qed.

Lemma set_same s :
  set_cursor_x (cursor_x s) s = s ∧ set_cursor_y (cursor_y s) s = s ∧
  set_buffer (buffer s) s = s.
Proof. by destruct s. Qed.

Lemma insert_shape s pre line post k ch :
  at_cursor s pre line post k →
  insert ch s =
  Some (set_unsaved true (set_cursor_x (cursor_x s + 1)
          (set_buffer (pre ++ (take k line ++ ch ++ drop k line) :: post) s))).
Proof.
  intros Hat. unfold insert.
  rewrite (at_cursor_get _ _ _ _ _ Hat). simpl.
  rewrite (at_cursor_upto _ _ _ _ _ Hat), (at_cursor_from _ _ _ _ _ Hat).
  by rewrite (at_cursor_set _ _ _ _ _ Hat).
Qed.

Lemma backspace_shape s pre line post k :
  at_cursor s pre line post (S k) →
  backspace s =
  Some (set_unsaved true (set_cursor_x (cursor_x s - 1)
          (set_buffer (pre ++ (take k line ++ drop (S k) line) :: post) s))).
Proof.
  intros Hat. unfold backspace. destruct Hat as (Hb & Hy & Hx & Hk) eqn:E. clear E.
  rewrite decide_True by lia.
  rewrite (at_cursor_get _ _ _ _ _ Hat). simpl.
  rewrite (at_cursor_from _ _ _ _ _ Hat).
  unfold Py.upto. rewrite bound_nonneg by lia.
  replace (Z.to_nat (cursor_x s - 1)) with k by lia.
  by rewrite (at_cursor_set _ _ _ _ _ Hat).
Qed.

Lemma backspace_merge_shape s pre prev line post :
  at_cursor s (pre ++ [prev]) line post 0 →
  backspace s =
  Some (set_unsaved true (set_cursor_y (cursor_y s - 1)
          (set_buffer (pre ++ (prev ++ line) :: post)
             (set_cursor_x (Py.len prev) s)))).
Proof.
  intros Hat. destruct Hat as (Hb & Hy & Hx & Hk) eqn:E. clear E.
  rewrite length_app in Hy. simpl in Hy.
  assert (Hn : Z.to_nat (cursor_y s - 1) = length pre) by lia.
  assert (Hprev : buffer s !! length pre = Some prev).
  { rewrite Hb, <- app_assoc. by apply list_lookup_middle. }
  assert (Hline : buffer s !! S (length pre) = Some line).
  { rewrite Hb. apply list_lookup_middle. rewrite length_app. simpl. lia. }
  assert (Hlen : Py.len (buffer s) = Z.of_nat (length pre) + 2 + Py.len post).
  { rewrite Hb. unfold Py.len. rewrite !length_app. simpl. lia. }
  pose proof (len_nonneg post).
  unfold backspace. rewrite decide_False by lia. rewrite decide_True by lia.
  rewrite (at_cursor_get _ _ _ _ _ Hat).
  rewrite get_nonneg by lia. rewrite Hn, Hprev. simpl.
  rewrite set_in_range by lia. simpl.
  rewrite pop_in_range by (rewrite len_insert_at; lia). simpl.
  rewrite Hn. replace (Z.to_nat (cursor_y s)) with (S (length pre)) by lia.
  rewrite (delete_after_merge _ _ _ _ Hprev Hline).
  rewrite Hb. rewrite <- app_assoc. rewrite take_app_length.
  replace (pre ++ [prev] ++ line :: post) with ((pre ++ [prev; line]) ++ post)
    by (by rewrite <- app_assoc).
  rewrite drop_app_length' by (rewrite !length_app; simpl; lia).
  done.
Qed.

Lemma newline_shape s pre line post k :
  at_cursor s pre line post k →
  newline s =
  Some (set_unsaved true (set_cursor_x 0 (set_cursor_y (cursor_y s + 1)
          (set_buffer (pre ++ take k line :: drop k line :: post) s)))).
Proof.
  intros Hat. unfold newline. destruct Hat as (Hb & Hy & Hx & Hk) eqn:E. clear E.
  rewrite (at_cursor_get _ _ _ _ _ Hat). simpl.
  rewrite (at_cursor_upto _ _ _ _ _ Hat), (at_cursor_from _ _ _ _ _ Hat).
  rewrite (at_cursor_set _ _ _ _ _ Hat). simpl.
  unfold Py.insert. rewrite bound_nonneg by lia.
  replace (Z.to_nat (cursor_y s + 1)) with (S (length pre)) by lia.
  rewrite (cons_middle (take k line) pre post), app_assoc.
  rewrite take_app_length', drop_app_length' by (rewrite length_app; simpl; lia).
  by rewrite <- app_assoc.
Qed.

Lemma take_past_prefix {A} (l rest : list A) (k : nat) (x : A) :
  (k ≤ length l)%nat → take (S k) (take k l ++ x :: rest) = take k l ++ [x].
Proof.
  intros Hk. replace (S k) with (length (take k l) + 1)%nat
    by (rewrite length_take; lia).
  by rewrite take_app_add.
Qed.

Lemma drop_past_prefix {A} (l rest : list A) (k : nat) (x : A) :
  (k ≤ length l)%nat → drop (S k) (take k l ++ x :: rest) = rest.
Proof.
  intros Hk. replace (S k) with (length (take k l) + 1)%nat
    by (rewrite length_take; lia).
  by rewrite drop_app_add.
Qed.

Lemma take_prefix {A} (l rest : list A) (k : nat) :
  (k ≤ length l)%nat → take k (take k l ++ rest) = take k l.
Proof. intros Hk. apply take_app_length'. rewrite length_take. lia. Qed.

Lemma drop_prefix {A} (l rest : list A) (k : nat) :
  (k ≤ length l)%nat → drop k (take k l ++ rest) = rest.
Proof. intros Hk. apply drop_app_length'. rewrite length_take. lia. Qed.

(** ** Editing, seen on the document as one text *)

Lemma insert_text (c : Z) (s : TinyconfEditor) :
  cursor_ok s →
  ∃ s', insert [c] s = Some s' ∧
        document s = text_before s ++ text_after s ∧
        document s' = text_before s ++ c :: text_after s ∧
        text_before s' = text_before s ++ [c] ∧
        text_after s' = text_after s ∧ unsaved s' = true.
Proof.
  intros Hok. destruct (cursor_ok_at s Hok) as (pre & line & post & k & Hat).
  rewrite (insert_shape _ _ _ _ _ _ Hat). eexists. split; [reflexivity |].
  set (s' := set_unsaved true _).
  destruct Hat as (Hb & Hy & Hx & Hk) eqn:E. clear E.
  assert (Hat' : at_cursor s' pre (take k line ++ [c] ++ drop k line) post (S k)).
  { repeat split; simpl; try done; try lia.
    rewrite length_app, length_take. simpl. lia. }
  assert (Hbefore : text_before s' = text_before s ++ [c]).
  { rewrite (text_before_at _ _ _ _ _ Hat'), (text_before_at _ _ _ _ _ Hat).
    simpl. rewrite take_past_prefix by done. by rewrite app_assoc. }
  assert (Hafter : text_after s' = text_after s).
  { rewrite (text_after_at _ _ _ _ _ Hat'), (text_after_at _ _ _ _ _ Hat).
    simpl. by rewrite drop_past_prefix. }
  split; [by eapply document_at |].
  split; [| done].
  rewrite (document_at _ _ _ _ _ Hat'), Hbefore, Hafter. by rewrite <- app_assoc.
Qed.

(** X1.  With a valid cursor, [insert] of one character returns, and the
    document it leaves is the old one with that character put in at the
    cursor: the text before the cursor grows by the character, the text
    after the cursor is the same, and the dirty flag is set. *)
Theorem insert_adds_before_cursor (c : Z) (s : TinyconfEditor) :
  cursor_ok s →
  ∃ s', insert [c] s = Some s' ∧
        document s = text_before s ++ text_after s ∧
        document s' = text_before s ++ c :: text_after s ∧
        text_before s' = text_before s ++ [c] ∧
        text_after s' = text_after s ∧ unsaved s' = true.
Proof. apply insert_text. Qed.

(** X1 on the two lines "ab" and "cd" with the cursor at (0, 0). *)
Lemma insert_adds_before_cursor_witness :
  ∃ s', insert [120] two_lines = Some s' ∧
        document two_lines = text_before two_lines ++ text_after two_lines ∧
        document s' = text_before two_lines ++ 120 :: text_after two_lines ∧
        text_before s' = text_before two_lines ++ [120] ∧
        text_after s' = text_after two_lines ∧ unsaved s' = true.
Proof.
  apply (insert_adds_before_cursor 120 two_lines).
  split; [done |]. exists (py "ab"). split; [reflexivity | done].
Defined.

(** X2.  With a valid cursor, [newline] returns, and the document it leaves
    is the old one with a line feed put in at the cursor; the buffer has one
    line more and the cursor is at column 0 of the next row. *)
Theorem newline_adds_line_feed (s : TinyconfEditor) :
  cursor_ok s →
  ∃ s', newline s = Some s' ∧
        document s' = text_before s ++ 10 :: text_after s ∧
        text_before s' = text_before s ++ [10] ∧
        text_after s' = text_after s ∧
        Py.len (buffer s') = Py.len (buffer s) + 1 ∧
        cursor_y s' = cursor_y s + 1 ∧ cursor_x s' = 0 ∧ unsaved s' = true.
Proof.
  intros Hok. destruct (cursor_ok_at s Hok) as (pre & line & post & k & Hat).
  rewrite (newline_shape _ _ _ _ _ Hat). eexists. split; [reflexivity |].
  set (s' := set_unsaved true _).
  destruct Hat as (Hb & Hy & Hx & Hk) eqn:E. clear E.
  assert (Hat' : at_cursor s' (pre ++ [take k line]) (drop k line) post 0).
  { repeat split; simpl; try lia.
    - by rewrite <- app_assoc.
    - rewrite length_app. simpl. lia. }
  assert (Hbefore : text_before s' = text_before s ++ [10]).
  { rewrite (text_before_at _ _ _ _ _ Hat'), (text_before_at _ _ _ _ _ Hat).
    rewrite fmap_app, concat_app. simpl. by rewrite !app_nil_r, app_assoc. }
  assert (Hafter : text_after s' = text_after s).
  { by rewrite (text_after_at _ _ _ _ _ Hat'), (text_after_at _ _ _ _ _ Hat). }
  split.
  { rewrite (document_at _ _ _ _ _ Hat'), Hbefore, Hafter. by rewrite <- app_assoc. }
  split; [done |]. split; [done |]. split; [| done].
  simpl. rewrite Hb. unfold Py.len. rewrite !length_app. simpl. lia.
Qed.

(** X2 on the two lines "ab" and "cd" with the cursor at (0, 1). *)
Lemma newline_adds_line_feed_witness :
  ∃ s', newline (set_cursor_x 1 two_lines) = Some s' ∧
        buffer s' = [py "a"; py "b"; py "cd"] ∧
        cursor_y s' = 1 ∧ cursor_x s' = 0.
Proof.
  destruct (newline_adds_line_feed (set_cursor_x 1 two_lines))
    as (s' & E & _ & _ & _ & _ & Hy & Hx & _).
  { split; [done |]. exists (py "ab"). split; [reflexivity | done]. }
  exists s'. split; [exact E |]. split; [| split; [exact Hy | exact Hx]].
  vm_compute in E. by injection E as <-.
Defined.

(** X3.  With a valid cursor that has a character [c] before it (a line
    feed when the cursor is at column 0 of a row below the first),
    delete-backward returns and leaves the old document without that one
    character: the text before the cursor loses its last character and
    the text after the cursor is the same. *)
Theorem backspace_removes_before_cursor (s : TinyconfEditor) (b : pystr) (c : Z) :
  cursor_ok s → text_before s = b ++ [c] →
  ∃ s', backspace s = Some s' ∧
        document s' = b ++ text_after s ∧
        text_before s' = b ∧ text_after s' = text_after s ∧ unsaved s' = true.
Proof.
  intros Hok Hbc. destruct (cursor_ok_at s Hok) as (pre & line & post & k & Hat).
  pose proof (text_before_at _ _ _ _ _ Hat) as Hbefore.
  pose proof (text_after_at _ _ _ _ _ Hat) as Hafter.
  assert (Hgoal : ∀ s' pre' line' post' k',
            backspace s = Some s' → at_cursor s' pre' line' post' k' → unsaved s' = true →
            concat ((λ l, l ++ [10]) <$> pre') ++ take k' line' = b →
            drop k' line' ++ concat ((λ l, 10 :: l) <$> post') = text_after s →
            ∃ s', backspace s = Some s' ∧ document s' = b ++ text_after s ∧
                  text_before s' = b ∧ text_after s' = text_after s ∧ unsaved s' = true).
  { intros s' pre' line' post' k' E Hat' Hu Hb' Ha'. exists s'.
    rewrite (document_at _ _ _ _ _ Hat').
    rewrite (text_before_at _ _ _ _ _ Hat'), (text_after_at _ _ _ _ _ Hat').
    by rewrite Hb', Ha'. }
  destruct Hat as (Hb & Hy & Hx & Hk) eqn:E. clear E.
  destruct k as [| k].
  - destruct pre as [| prev pre _] using rev_ind.
    { rewrite Hbefore in Hbc. simpl in Hbc. by destruct b. }
    rewrite Hbefore in Hbc. rewrite fmap_app, concat_app in Hbc. simpl in Hbc.
    rewrite !app_nil_r, app_assoc in Hbc. apply app_inj_tail in Hbc as [Hbb _].
    eapply (Hgoal _ pre (prev ++ line) post (length prev)).
    + by apply backspace_merge_shape.
    + rewrite length_app in Hy. simpl in Hy.
      repeat split; simpl; try done; try lia. rewrite length_app. lia.
    + done.
    + by rewrite take_app_length.
    + rewrite drop_app_length. by rewrite Hafter.
  - assert (is_Some (line !! k)) as [x Hxk] by (apply lookup_lt_is_Some_2; lia).
    rewrite Hbefore, (take_S_r _ _ _ Hxk), app_assoc in Hbc.
    apply app_inj_tail in Hbc as [Hbb _].
    eapply (Hgoal _ pre (take k line ++ drop (S k) line) post k).
    + by apply backspace_shape.
    + repeat split; simpl; try done; try lia.
      rewrite length_app, length_take. lia.
    + done.
    + rewrite take_prefix by lia. done.
    + rewrite drop_prefix by lia. by rewrite Hafter.
Qed.

(** X3 on the two lines "ab" and "cd" with the cursor at (1, 0): the line
    feed between them goes. *)
Lemma backspace_removes_before_cursor_witness :
  ∃ s', backspace (set_cursor_y 1 two_lines) = Some s' ∧
        document s' = py "ab" ++ text_after (set_cursor_y 1 two_lines) ∧
        text_before s' = py "ab" ∧
        text_after s' = text_after (set_cursor_y 1 two_lines) ∧ unsaved s' = true.
Proof.
  apply (backspace_removes_before_cursor (set_cursor_y 1 two_lines) (py "ab") 10).
  - split; [done |]. exists (py "cd"). split; [reflexivity | done].
  - reflexivity.
Defined.

Lemma editor_eq s s' :
  buffer s = buffer s' → cursor_y s = cursor_y s' → cursor_x s = cursor_x s' →
  scroll_offset s = scroll_offset s' → filepath s = filepath s' →
  status s = status s' → status_timer s = status_timer s' →
  unsaved s = unsaved s' → command_mode s = command_mode s' →
  command_input s = command_input s' → slash_prefix s = slash_prefix s' →
  files s = files s' → writes s = writes s' → s = s'.
Proof. destruct s, s'. simpl. by intros -> -> -> -> -> -> -> -> -> -> -> -> ->. Qed.

(** ** Editing operations that undo each other *)

(** X4.  With a valid cursor, inserting a character and then deleting
    backward gives back the buffer, the cursor and every other field; only
    the dirty flag is set. *)
Theorem backspace_undoes_insert (c : Z) (s : TinyconfEditor) :
  cursor_ok s →
  insert [c] s ≫= backspace = Some (set_unsaved true s).
Proof.
  intros Hok. destruct (cursor_ok_at s Hok) as (pre & line & post & k & Hat).
  rewrite (insert_shape _ _ _ _ _ _ Hat). simpl.
  destruct Hat as (Hb & Hy & Hx & Hk) eqn:E. clear E.
  set (s1 := set_unsaved true _).
  assert (Hat1 : at_cursor s1 pre (take k line ++ [c] ++ drop k line) post (S k)).
  { repeat split; simpl; try done; try lia.
    rewrite length_app, length_take. simpl. lia. }
  rewrite (backspace_shape _ _ _ _ _ Hat1).
  f_equal. apply editor_eq; simpl; try done; [| lia].
  rewrite take_prefix, drop_past_prefix by done. by rewrite take_drop.
Qed.

(** X4 on the two lines "ab" and "cd" with the cursor at (0, 0). *)
Lemma backspace_undoes_insert_witness :
  insert [120] two_lines ≫= backspace = Some (set_unsaved true two_lines).
Proof.
  apply (backspace_undoes_insert 120 two_lines).
  split; [done |]. exists (py "ab"). split; [reflexivity | done].
Defined.

(** X5.  With a valid cursor, splitting the line and then deleting backward
    gives back the buffer, the cursor and every other field; only the dirty
    flag is set. *)
Theorem backspace_undoes_newline (s : TinyconfEditor) :
  cursor_ok s →
  newline s ≫= backspace = Some (set_unsaved true s).
Proof.
  intros Hok. destruct (cursor_ok_at s Hok) as (pre & line & post & k & Hat).
  rewrite (newline_shape _ _ _ _ _ Hat). simpl.
  destruct Hat as (Hb & Hy & Hx & Hk) eqn:E. clear E.
  set (s1 := set_unsaved true _).
  assert (Hat1 : at_cursor s1 (pre ++ [take k line]) (drop k line) post 0).
  { repeat split; simpl; try lia.
    - by rewrite <- app_assoc.
    - rewrite length_app. simpl. lia. }
  rewrite (backspace_merge_shape _ _ _ _ _ Hat1).
  f_equal. apply editor_eq; simpl; try done; try lia.
  - by rewrite take_drop.
  - unfold Py.len. rewrite length_take. lia.
Qed.

(** X5 on the two lines "ab" and "cd" with the cursor at (0, 1). *)
Lemma backspace_undoes_newline_witness :
  newline (set_cursor_x 1 two_lines) ≫= backspace
  = Some (set_unsaved true (set_cursor_x 1 two_lines)).
Proof.
  apply (backspace_undoes_newline (set_cursor_x 1 two_lines)).
  split; [done |]. exists (py "ab"). split; [reflexivity | done].
Defined.

(** ** Cursor movement around the cursor *)

Lemma clamp_column_valid s pre line post k :
  at_cursor s pre line post k →
  (line ← Py.get (buffer s) (cursor_y s);
   Some (set_cursor_x (Z.min (cursor_x s) (Py.len line)) s)) = Some s.
Proof.
  intros Hat. rewrite (at_cursor_get _ _ _ _ _ Hat). simpl.
  destruct Hat as (_ & _ & Hx & Hk). unfold Py.len.
  replace (Z.min (cursor_x s) (Z.of_nat (length line))) with (cursor_x s) by lia.
  f_equal. apply set_same.
Qed.

Lemma move_cursor_clamps k s s1 :
  (if decide (k = Curses.KEY_UP ∧ cursor_y s > 0) then
     Some (set_cursor_y (cursor_y s - 1) s)
   else if decide (k = Curses.KEY_DOWN ∧ cursor_y s < Py.len (buffer s) - 1) then
     Some (set_cursor_y (cursor_y s + 1) s)
   else if decide (k = Curses.KEY_LEFT) then
     if decide (cursor_x s > 0) then Some (set_cursor_x (cursor_x s - 1) s)
     else if decide (cursor_y s > 0) then
       line ← Py.get (buffer s) (cursor_y s - 1);
       Some (set_cursor_x (Py.len line) (set_cursor_y (cursor_y s - 1) s))
     else Some s
   else if decide (k = Curses.KEY_RIGHT) then
     line ← Py.get (buffer s) (cursor_y s);
     if decide (cursor_x s < Py.len line) then Some (set_cursor_x (cursor_x s + 1) s)
     else if decide (cursor_y s < Py.len (buffer s) - 1) then
       Some (set_cursor_x 0 (set_cursor_y (cursor_y s + 1) s))
     else Some s
   else Some s) = Some s1 →
  move_cursor k s =
  (line ← Py.get (buffer s1) (cursor_y s1);
   Some (set_cursor_x (Z.min (cursor_x s1) (Py.len line)) s1)).
Proof. intros E. unfold move_cursor. by rewrite E. Qed.

Lemma len_around (pre : list pystr) (line : pystr) (post : list pystr) :
  Py.len (pre ++ line :: post) = Z.of_nat (length pre) + 1 + Py.len post.
Proof. unfold Py.len. rewrite length_app. simpl. lia. Qed.

Lemma move_left_in_line s pre line post k :
  at_cursor s pre line post (S k) →
  move_cursor Curses.KEY_LEFT s = Some (set_cursor_x (cursor_x s - 1) s).
Proof.
  intros Hat. destruct Hat as (Hb & Hy & Hx & Hk) eqn:E. clear E.
  rewrite (move_cursor_clamps _ _ (set_cursor_x (cursor_x s - 1) s)).
  - apply (clamp_column_valid _ pre line post k). repeat split; simpl; try done; lia.
  - rewrite decide_False by (by intros [? _]).
    rewrite decide_False by (by intros [? _]).
    rewrite decide_True by done. by rewrite decide_True by lia.
Qed.

Lemma move_left_wrap s pre prev line post :
  at_cursor s (pre ++ [prev]) line post 0 →
  move_cursor Curses.KEY_LEFT s =
  Some (set_cursor_x (Py.len prev) (set_cursor_y (cursor_y s - 1) s)).
Proof.
  intros Hat. destruct Hat as (Hb & Hy & Hx & Hk) eqn:E. clear E.
  rewrite length_app in Hy. simpl in Hy.
  rewrite (move_cursor_clamps _ _ (set_cursor_x (Py.len prev) (set_cursor_y (cursor_y s - 1) s))).
  - apply (clamp_column_valid _ pre prev (line :: post) (length prev)).
    repeat split; simpl; try done; try lia. by rewrite Hb, <- app_assoc.
  - rewrite decide_False by (by intros [? _]).
    rewrite decide_False by (by intros [? _]).
    rewrite decide_True by done. rewrite decide_False by lia.
    rewrite decide_True by lia.
    rewrite get_nonneg by lia.
    replace (Z.to_nat (cursor_y s - 1)) with (length pre) by lia.
    assert (Hprev : buffer s !! length pre = Some prev)
      by (rewrite Hb, <- app_assoc; by apply list_lookup_middle).
    by rewrite Hprev.
Qed.

Lemma move_left_origin s line post :
  at_cursor s [] line post 0 → move_cursor Curses.KEY_LEFT s = Some s.
Proof.
  intros Hat. destruct Hat as (Hb & Hy & Hx & Hk) eqn:E. clear E. simpl in Hy.
  rewrite (move_cursor_clamps _ _ s).
  - by apply (clamp_column_valid _ [] line post 0).
  - rewrite decide_False by (by intros [? _]).
    rewrite decide_False by (by intros [? _]).
    rewrite decide_True by done. rewrite decide_False by lia.
    by rewrite decide_False by lia.
Qed.

Lemma move_right_in_line s pre line post k :
  at_cursor s pre line post k → (k < length line)%nat →
  move_cursor Curses.KEY_RIGHT s = Some (set_cursor_x (cursor_x s + 1) s).
Proof.
  intros Hat Hlt. destruct Hat as (Hb & Hy & Hx & Hk) eqn:E. clear E.
  rewrite (move_cursor_clamps _ _ (set_cursor_x (cursor_x s + 1) s)).
  - apply (clamp_column_valid _ pre line post (S k)). repeat split; simpl; try done; lia.
  - rewrite decide_False by (by intros [? _]).
    rewrite decide_False by (by intros [? _]).
    rewrite decide_False by done. rewrite decide_True by done.
    rewrite (at_cursor_get _ _ _ _ _ Hat). simpl.
    by rewrite decide_True by (unfold Py.len; lia).
Qed.

Lemma move_right_wrap s pre line next post :
  at_cursor s pre line (next :: post) (length line) →
  move_cursor Curses.KEY_RIGHT s =
  Some (set_cursor_x 0 (set_cursor_y (cursor_y s + 1) s)).
Proof.
  intros Hat. destruct Hat as (Hb & Hy & Hx & Hk) eqn:E. clear E.
  rewrite (move_cursor_clamps _ _ (set_cursor_x 0 (set_cursor_y (cursor_y s + 1) s))).
  - apply (clamp_column_valid _ (pre ++ [line]) next post 0).
    repeat split; simpl; try lia.
    + by rewrite Hb, <- app_assoc.
    + rewrite length_app. simpl. lia.
  - rewrite decide_False by (by intros [? _]).
    rewrite decide_False by (by intros [? _]).
    rewrite decide_False by done. rewrite decide_True by done.
    rewrite (at_cursor_get _ _ _ _ _ Hat). simpl.
    rewrite decide_False by (unfold Py.len; lia).
    rewrite decide_True; [done |].
    rewrite Hb, len_around. pose proof (len_nonneg post).
    unfold Py.len in *. simpl. lia.
Qed.

Lemma move_right_end s pre line :
  at_cursor s pre line [] (length line) →
  move_cursor Curses.KEY_RIGHT s = Some s.
Proof.
  intros Hat. destruct Hat as (Hb & Hy & Hx & Hk) eqn:E. clear E.
  rewrite (move_cursor_clamps _ _ s).
  - by apply (clamp_column_valid _ pre line [] (length line)).
  - rewrite decide_False by (by intros [? _]).
    rewrite decide_False by (by intros [? _]).
    rewrite decide_False by done. rewrite decide_True by done.
    rewrite (at_cursor_get _ _ _ _ _ Hat). simpl.
    rewrite decide_False by (unfold Py.len; lia).
    rewrite decide_False; [done |].
    rewrite Hb, len_around. unfold Py.len. simpl. lia.
Qed.

Lemma move_up_shape s pre prev line post k :
  at_cursor s (pre ++ [prev]) line post k →
  move_cursor Curses.KEY_UP s =
  Some (set_cursor_x (Z.min (cursor_x s) (Py.len prev)) (set_cursor_y (cursor_y s - 1) s)).
Proof.
  intros Hat. destruct Hat as (Hb & Hy & Hx & Hk) eqn:E. clear E.
  rewrite length_app in Hy. simpl in Hy.
  rewrite (move_cursor_clamps _ _ (set_cursor_y (cursor_y s - 1) s)).
  - simpl. rewrite get_nonneg by lia.
    replace (Z.to_nat (cursor_y s - 1)) with (length pre) by lia.
    assert (Hprev : buffer s !! length pre = Some prev)
      by (rewrite Hb, <- app_assoc; by apply list_lookup_middle).
    by rewrite Hprev.
  - by rewrite decide_True by (split; [done | lia]).
Qed.

Lemma move_up_top s line post k :
  at_cursor s [] line post k → move_cursor Curses.KEY_UP s = Some s.
Proof.
  intros Hat. destruct Hat as (Hb & Hy & Hx & Hk) eqn:E. clear E. simpl in Hy.
  rewrite (move_cursor_clamps _ _ s).
  - by apply (clamp_column_valid _ [] line post k).
  - rewrite decide_False by (intros [_ ?]; lia).
    rewrite decide_False by (by intros [? _]).
    rewrite decide_False by done. by rewrite decide_False by done.
Qed.

Lemma move_down_shape s pre line next post k :
  at_cursor s pre line (next :: post) k →
  move_cursor Curses.KEY_DOWN s =
  Some (set_cursor_x (Z.min (cursor_x s) (Py.len next)) (set_cursor_y (cursor_y s + 1) s)).
Proof.
  intros Hat. destruct Hat as (Hb & Hy & Hx & Hk) eqn:E. clear E.
  rewrite (move_cursor_clamps _ _ (set_cursor_y (cursor_y s + 1) s)).
  - simpl. rewrite get_nonneg by lia.
    replace (Z.to_nat (cursor_y s + 1)) with (S (length pre)) by lia.
    assert (Hnext : buffer s !! S (length pre) = Some next).
    { rewrite Hb, (cons_middle line), app_assoc. apply list_lookup_middle.
      rewrite length_app. simpl. lia. }
    by rewrite Hnext.
  - rewrite decide_False by (by intros [? _]).
    rewrite decide_True; [done |]. split; [done |].
    rewrite Hb, len_around. pose proof (len_nonneg post).
    unfold Py.len in *. simpl. lia.
Qed.

Lemma move_down_bottom s pre line k :
  at_cursor s pre line [] k → move_cursor Curses.KEY_DOWN s = Some s.
Proof.
  intros Hat. destruct Hat as (Hb & Hy & Hx & Hk) eqn:E. clear E.
  rewrite (move_cursor_clamps _ _ s).
  - by apply (clamp_column_valid _ pre line [] k).
  - rewrite decide_False by (by intros [? _]).
    rewrite decide_False.
    + rewrite decide_False by done. by rewrite decide_False by done.
    + intros [_ Hlt]. rewrite Hb, len_around in Hlt. unfold Py.len in Hlt. simpl in Hlt. lia.
Qed.

(** X6.  With a valid cursor that has a character [c] before it, the left
    arrow returns and moves the cursor over exactly that character of the
    document, a line feed included: it wraps to the end of the row above
    from column 0. *)
Theorem left_steps_over_one_character (s : TinyconfEditor) (b : pystr) (c : Z) :
  cursor_ok s → text_before s = b ++ [c] →
  ∃ s', move_cursor Curses.KEY_LEFT s = Some s' ∧
        text_before s' = b ∧ text_after s' = c :: text_after s ∧
        document s' = document s.
Proof.
  intros Hok Hbc. destruct (cursor_ok_at s Hok) as (pre & line & post & k & Hat).
  pose proof (text_before_at _ _ _ _ _ Hat) as Hbefore.
  pose proof (text_after_at _ _ _ _ _ Hat) as Hafter.
  destruct Hat as (Hb & Hy & Hx & Hk) eqn:E. clear E.
  destruct k as [| k].
  - destruct pre as [| prev pre _] using rev_ind.
    { rewrite Hbefore in Hbc. simpl in Hbc. by destruct b. }
    rewrite Hbefore in Hbc. rewrite fmap_app, concat_app in Hbc. simpl in Hbc.
    rewrite !app_nil_r, app_assoc in Hbc. apply app_inj_tail in Hbc as [Hbb Hc].
    rewrite (move_left_wrap _ _ _ _ _ Hat). eexists. split; [reflexivity |].
    set (s' := set_cursor_x _ _).
    rewrite length_app in Hy. simpl in Hy.
    assert (Hat' : at_cursor s' pre prev (line :: post) (length prev)).
    { repeat split; simpl; try done; try lia. by rewrite Hb, <- app_assoc. }
    rewrite (text_before_at _ _ _ _ _ Hat'), (text_after_at _ _ _ _ _ Hat').
    rewrite firstn_all, drop_all, Hafter. simpl. by rewrite <- Hc.
  - assert (is_Some (line !! k)) as [x Hxk] by (apply lookup_lt_is_Some_2; lia).
    rewrite Hbefore, (take_S_r _ _ _ Hxk), app_assoc in Hbc.
    apply app_inj_tail in Hbc as [Hbb Hc].
    rewrite (move_left_in_line _ _ _ _ _ Hat). eexists. split; [reflexivity |].
    set (s' := set_cursor_x _ _).
    assert (Hat' : at_cursor s' pre line post k)
      by (repeat split; simpl; try done; lia).
    rewrite (text_before_at _ _ _ _ _ Hat'), (text_after_at _ _ _ _ _ Hat').
    split; [done |]. split; [| done].
    rewrite Hafter, <- Hc. by rewrite (drop_S _ _ _ Hxk).
Qed.

(** X6 on the two lines "ab" and "cd" with the cursor at (1, 0). *)
Lemma left_steps_over_one_character_witness :
  ∃ s', move_cursor Curses.KEY_LEFT (set_cursor_y 1 two_lines) = Some s' ∧
        text_before s' = py "ab" ∧
        text_after s' = 10 :: text_after (set_cursor_y 1 two_lines) ∧
        document s' = document (set_cursor_y 1 two_lines).
Proof.
  apply (left_steps_over_one_character (set_cursor_y 1 two_lines) (py "ab") 10).
  - split; [done |]. exists (py "cd"). split; [reflexivity | done].
  - reflexivity.
Defined.

(** X7.  With a valid cursor that has a character [c] after it, the right
    arrow returns and moves the cursor over exactly that character of the
    document, a line feed included: it wraps to column 0 of the row below
    from the end of a row. *)
Theorem right_steps_over_one_character (s : TinyconfEditor) (a : pystr) (c : Z) :
  cursor_ok s → text_after s = c :: a →
  ∃ s', move_cursor Curses.KEY_RIGHT s = Some s' ∧
        text_before s' = text_before s ++ [c] ∧ text_after s' = a ∧
        document s' = document s.
Proof.
  intros Hok Hca. destruct (cursor_ok_at s Hok) as (pre & line & post & k & Hat).
  pose proof (text_before_at _ _ _ _ _ Hat) as Hbefore.
  pose proof (text_after_at _ _ _ _ _ Hat) as Hafter.
  destruct Hat as (Hb & Hy & Hx & Hk) eqn:E. clear E.
  destruct (decide (k < length line)%nat) as [Hlt | Hge].
  - assert (is_Some (line !! k)) as [x Hxk] by (by apply lookup_lt_is_Some_2).
    rewrite Hafter, (drop_S _ _ _ Hxk) in Hca. simpl in Hca.
    injection Hca as Hc Ha.
    rewrite (move_right_in_line _ _ _ _ _ Hat Hlt). eexists. split; [reflexivity |].
    set (s' := set_cursor_x _ _).
    assert (Hat' : at_cursor s' pre line post (S k))
      by (repeat split; simpl; try done; lia).
    rewrite (text_before_at _ _ _ _ _ Hat'), (text_after_at _ _ _ _ _ Hat').
    rewrite Hbefore, (take_S_r _ _ _ Hxk), Hc. by rewrite app_assoc.
  - assert (k = length line) as -> by lia.
    rewrite Hafter, drop_all in Hca. simpl in Hca.
    destruct post as [| next post]; [done |]. simpl in Hca.
    injection Hca as Hc Ha.
    rewrite (move_right_wrap _ _ _ _ _ Hat). eexists. split; [reflexivity |].
    set (s' := set_cursor_x _ _).
    assert (Hat' : at_cursor s' (pre ++ [line]) next post 0).
    { repeat split; simpl; try lia.
      - by rewrite Hb, <- app_assoc.
      - rewrite length_app. simpl. lia. }
    rewrite (text_before_at _ _ _ _ _ Hat'), (text_after_at _ _ _ _ _ Hat').
    rewrite Hbefore, firstn_all, fmap_app, concat_app. simpl.
    rewrite !app_nil_r, <- Hc. by rewrite <- app_assoc.
Qed.

(** X7 on the two lines "ab" and "cd" with the cursor at (0, 2). *)
Lemma right_steps_over_one_character_witness :
  ∃ s', move_cursor Curses.KEY_RIGHT (set_cursor_x 2 two_lines) = Some s' ∧
        text_before s' = text_before (set_cursor_x 2 two_lines) ++ [10] ∧
        text_after s' = py "cd" ∧
        document s' = document (set_cursor_x 2 two_lines).
Proof.
  apply (right_steps_over_one_character (set_cursor_x 2 two_lines) (py "cd") 10).
  - split; [done |]. exists (py "ab"). split; [reflexivity | done].
  - reflexivity.
Defined.

(** X8.  With a valid cursor that is not at the start of the document, the
    left arrow followed by the right arrow gives back the same state. *)
Theorem right_undoes_left (s : TinyconfEditor) :
  cursor_ok s → cursor_x s > 0 ∨ cursor_y s > 0 →
  move_cursor Curses.KEY_LEFT s ≫= move_cursor Curses.KEY_RIGHT = Some s.
Proof.
  intros Hok Hnot. destruct (cursor_ok_at s Hok) as (pre & line & post & k & Hat).
  destruct Hat as (Hb & Hy & Hx & Hk) eqn:E. clear E.
  destruct k as [| k].
  - destruct pre as [| prev pre _] using rev_ind; [simpl in Hy; lia |].
    rewrite (move_left_wrap _ _ _ _ _ Hat). simpl.
    set (s' := set_cursor_x _ _).
    rewrite length_app in Hy. simpl in Hy.
    assert (Hat' : at_cursor s' pre prev (line :: post) (length prev)).
    { repeat split; simpl; try done; try lia. by rewrite Hb, <- app_assoc. }
    rewrite (move_right_wrap _ _ _ _ _ Hat').
    f_equal. apply editor_eq; simpl; try done; lia.
  - rewrite (move_left_in_line _ _ _ _ _ Hat). simpl.
    set (s' := set_cursor_x _ _).
    assert (Hat' : at_cursor s' pre line post k)
      by (repeat split; simpl; try done; lia).
    rewrite (move_right_in_line _ _ _ _ _ Hat') by lia.
    f_equal. apply editor_eq; simpl; try done; lia.
Qed.

(** X8 on the two lines "ab" and "cd" with the cursor at (1, 0). *)
Lemma right_undoes_left_witness :
  move_cursor Curses.KEY_LEFT (set_cursor_y 1 two_lines)
    ≫= move_cursor Curses.KEY_RIGHT
  = Some (set_cursor_y 1 two_lines).
Proof.
  apply (right_undoes_left (set_cursor_y 1 two_lines)).
  - split; [done |]. exists (py "cd"). split; [reflexivity | done].
  - right. done.
Defined.

(** X9.  With a valid cursor that is not at the end of the document, the
    right arrow followed by the left arrow gives back the same state. *)
Theorem left_undoes_right (s : TinyconfEditor) :
  cursor_ok s →
  cursor_x s < Py.len (current_line s) ∨ cursor_y s < Py.len (buffer s) - 1 →
  move_cursor Curses.KEY_RIGHT s ≫= move_cursor Curses.KEY_LEFT = Some s.
Proof.
  intros Hok Hnot. destruct (cursor_ok_at s Hok) as (pre & line & post & k & Hat).
  rewrite (at_cursor_current_line _ _ _ _ _ Hat) in Hnot.
  destruct Hat as (Hb & Hy & Hx & Hk) eqn:E. clear E.
  destruct (decide (k < length line)%nat) as [Hlt | Hge].
  - rewrite (move_right_in_line _ _ _ _ _ Hat Hlt). simpl.
    set (s' := set_cursor_x _ _).
    assert (Hat' : at_cursor s' pre line post (S k))
      by (repeat split; simpl; try done; lia).
    rewrite (move_left_in_line _ _ _ _ _ Hat').
    f_equal. apply editor_eq; simpl; try done; lia.
  - assert (k = length line) as -> by lia.
    destruct post as [| next post].
    { rewrite Hb, len_around in Hnot. unfold Py.len in Hnot. simpl in Hnot. lia. }
    rewrite (move_right_wrap _ _ _ _ _ Hat). simpl.
    set (s' := set_cursor_x _ _).
    assert (Hat' : at_cursor s' (pre ++ [line]) next post 0).
    { repeat split; simpl; try lia.
      - by rewrite Hb, <- app_assoc.
      - rewrite length_app. simpl. lia. }
    rewrite (move_left_wrap _ _ _ _ _ Hat').
    f_equal. apply editor_eq; simpl; try done; unfold Py.len; lia.
Qed.

(** X9 on the two lines "ab" and "cd" with the cursor at (0, 2). *)
Lemma left_undoes_right_witness :
  move_cursor Curses.KEY_RIGHT (set_cursor_x 2 two_lines)
    ≫= move_cursor Curses.KEY_LEFT
  = Some (set_cursor_x 2 two_lines).
Proof.
  apply (left_undoes_right (set_cursor_x 2 two_lines)).
  - split; [done |]. exists (py "ab"). split; [reflexivity | done].
  - right. done.
Defined.

(** X10.  With a valid cursor, the arrows do nothing at the edges of the
    buffer: up on the first row, down on the last row, left at the start of
    the first row and right at the end of the last row each return the
    state as it was. *)
Theorem arrows_stop_at_the_edges (s : TinyconfEditor) :
  cursor_ok s →
  (cursor_y s = 0 → move_cursor Curses.KEY_UP s = Some s) ∧
  (cursor_y s = Py.len (buffer s) - 1 → move_cursor Curses.KEY_DOWN s = Some s) ∧
  (cursor_y s = 0 → cursor_x s = 0 → move_cursor Curses.KEY_LEFT s = Some s) ∧
  (cursor_y s = Py.len (buffer s) - 1 → cursor_x s = Py.len (current_line s) →
   move_cursor Curses.KEY_RIGHT s = Some s).
Proof.
  intros Hok. destruct (cursor_ok_at s Hok) as (pre & line & post & k & Hat).
  rewrite (at_cursor_current_line _ _ _ _ _ Hat).
  destruct Hat as (Hb & Hy & Hx & Hk) eqn:E. clear E.
  assert (Hlast : cursor_y s = Py.len (buffer s) - 1 → post = []).
  { rewrite Hb, len_around, Hy. unfold Py.len. destruct post; [done | simpl; lia]. }
  assert (Hfirst : cursor_y s = 0 → pre = []).
  { rewrite Hy. destruct pre; [done | simpl; lia]. }
  repeat split.
  - intros H0. specialize (Hfirst H0). subst pre. by eapply move_up_top.
  - intros H1. specialize (Hlast H1). subst post. by eapply move_down_bottom.
  - intros H0 Hx0. specialize (Hfirst H0). subst pre.
    assert (k = 0)%nat as -> by lia. by eapply move_left_origin.
  - intros H1 Hx1. specialize (Hlast H1). subst post.
    assert (k = length line) as -> by (unfold Py.len in Hx1; lia).
    by eapply move_right_end.
Qed.

(** X10 on a buffer of the one line "ab" with the cursor at (0, 0): up,
    down and left change nothing. *)
Lemma arrows_stop_at_the_edges_witness :
  let s := init {[ "f" := py "ab" ]} (Some "f") in
  move_cursor Curses.KEY_UP s = Some s ∧
  move_cursor Curses.KEY_DOWN s = Some s ∧
  move_cursor Curses.KEY_LEFT s = Some s.
Proof.
  intros s.
  destruct (arrows_stop_at_the_edges s) as (Hup & Hdown & Hleft & _).
  { split; [done |]. exists (py "ab"). split; [reflexivity | done]. }
  split; [by apply Hup |]. split; [by apply Hdown | by apply Hleft].
Defined.

(** X11.  With a valid cursor, the up arrow on a row below the first and the
    down arrow on a row above the last return, move the cursor by one row,
    and keep the column unless the new row is shorter, in which case the
    column is the end of the new row; the new cursor is valid. *)
Theorem vertical_move_cuts_the_column (s : TinyconfEditor) :
  cursor_ok s →
  (∀ prev, cursor_y s > 0 → Py.get (buffer s) (cursor_y s - 1) = Some prev →
     ∃ s', move_cursor Curses.KEY_UP s = Some s' ∧ cursor_ok s' ∧
           cursor_y s' = cursor_y s - 1 ∧
           cursor_x s' = Z.min (cursor_x s) (Py.len prev)) ∧
  (∀ next, Py.get (buffer s) (cursor_y s + 1) = Some next →
     ∃ s', move_cursor Curses.KEY_DOWN s = Some s' ∧ cursor_ok s' ∧
           cursor_y s' = cursor_y s + 1 ∧
           cursor_x s' = Z.min (cursor_x s) (Py.len next)).
Proof.
  intros Hok. destruct (cursor_ok_at s Hok) as (pre & line & post & k & Hat).
  destruct Hat as (Hb & Hy & Hx & Hk) eqn:E. clear E.
  split.
  - intros prev Hpos Hprev.
    destruct pre as [| prev' pre _] using rev_ind; [simpl in Hy; lia |].
    rewrite length_app in Hy. simpl in Hy.
    rewrite get_nonneg in Hprev by lia.
    replace (Z.to_nat (cursor_y s - 1)) with (length pre) in Hprev by lia.
    assert (Hp : buffer s !! length pre = Some prev')
      by (rewrite Hb, <- app_assoc; by apply list_lookup_middle).
    rewrite Hp in Hprev. injection Hprev as ->.
    rewrite (move_up_shape _ _ _ _ _ _ Hat). eexists. split; [reflexivity |].
    split; [| done].
    apply (at_cursor_ok _ pre prev (line :: post) (Z.to_nat (Z.min (cursor_x s) (Py.len prev)))).
    unfold Py.len. repeat split; simpl; try lia. by rewrite Hb, <- app_assoc.
  - intros next Hnext.
    rewrite get_nonneg in Hnext by lia.
    replace (Z.to_nat (cursor_y s + 1)) with (S (length pre)) in Hnext by lia.
    rewrite Hb, (cons_middle line), app_assoc in Hnext.
    rewrite lookup_app_r in Hnext by (rewrite length_app; simpl; lia).
    rewrite length_app in Hnext. simpl in Hnext.
    replace (S (length pre) - (length pre + 1))%nat with 0%nat in Hnext by lia.
    destruct post as [| next' post]; [done |]. simpl in Hnext. injection Hnext as ->.
    rewrite (move_down_shape _ _ _ _ _ _ Hat). eexists. split; [reflexivity |].
    split; [| done].
    apply (at_cursor_ok _ (pre ++ [line]) next post (Z.to_nat (Z.min (cursor_x s) (Py.len next)))).
    unfold Py.len. repeat split; simpl; try lia.
    + by rewrite Hb, <- app_assoc.
    + rewrite length_app. simpl. lia.
Qed.

(** X11 on the lines "abcd" and "x" with the cursor at (0, 3): the down
    arrow puts it at (1, 1). *)
Lemma vertical_move_cuts_the_column_witness :
  let s := set_cursor_x 3 (init {[ "f" := py "abcd" ++ [10] ++ py "x" ]} (Some "f")) in
  ∃ s', move_cursor Curses.KEY_DOWN s = Some s' ∧ cursor_ok s' ∧
        cursor_y s' = 1 ∧ cursor_x s' = 1.
Proof.
  intros s.
  destruct (vertical_move_cuts_the_column s) as [_ Hdown].
  { split; [done |]. exists (py "abcd"). split; [reflexivity | done]. }
  destruct (Hdown (py "x")) as (s' & E & Hok & Hy & Hx); [reflexivity |].
  exists s'. split; [exact E |]. split; [exact Hok |]. split; [exact Hy | exact Hx].
Defined.

(** ** The mouse *)

(** X12.  A click on the status row or on a screen row that shows no line
    of the buffer returns the state as it was.  A click on a row that shows
    line [scroll_offset + mouse_y] returns with the cursor on that line, at
    the column [mouse_x - 5] cut to the line ([0] to its length); the cursor
    is then valid and nothing but the cursor has changed. *)
Theorem click_moves_cursor_or_is_ignored (i : input) (s : TinyconfEditor) :
  (mouse_y i >= rows i - 1 ∨
   ¬ (0 ≤ scroll_offset s + mouse_y i < Py.len (buffer s)) →
   click i s = Some s) ∧
  (∀ line, mouse_y i < rows i - 1 → 0 ≤ scroll_offset s + mouse_y i →
     Py.get (buffer s) (scroll_offset s + mouse_y i) = Some line →
     ∃ s', click i s = Some s' ∧
           cursor_y s' = scroll_offset s + mouse_y i ∧
           cursor_x s' = Z.max 0 (Z.min (mouse_x i - 5) (Py.len line)) ∧
           cursor_ok s' ∧ only_cursor_differs s s').
Proof.
  split.
  - intros Hout. unfold click. case_decide; [| done]. case_decide; [| done].
    destruct Hout; [lia | done].
  - intros line Hrow Hnn Hline. unfold click.
    pose proof (get_Some_range _ _ _ Hnn Hline) as Hlt.
    rewrite decide_True by done. rewrite decide_True by done. simpl.
    rewrite Hline. simpl. eexists. split; [reflexivity |]. simpl.
    split; [done |]. split; [done |]. split; [| done].
    split; simpl; [done |]. exists line. split; [done |].
    pose proof (len_nonneg line). lia.
Qed.

(** X12 on the two lines "ab" and "cd", on a terminal of 24 rows: a click
    at screen row 1, screen column 40 puts the cursor at (1, 2), and a click
    at screen row 23 (the status row) changes nothing. *)
Lemma click_moves_cursor_or_is_ignored_witness :
  (∃ s', click (Input 24 Curses.KEY_MOUSE 40 1) two_lines = Some s' ∧
         cursor_y s' = 1 ∧ cursor_x s' = 2) ∧
  click (Input 24 Curses.KEY_MOUSE 40 23) two_lines = Some two_lines.
Proof.
  split.
  - destruct (click_moves_cursor_or_is_ignored (Input 24 Curses.KEY_MOUSE 40 1) two_lines)
      as [_ Hin].
    destruct (Hin (py "cd")) as (s' & E & Hy & Hx & _); [done | done | reflexivity |].
    exists s'. split; [exact E |]. split; [exact Hy | exact Hx].
  - apply (click_moves_cursor_or_is_ignored (Input 24 Curses.KEY_MOUSE 40 23) two_lines).
    left. simpl. lia.
Defined.

(** ** The command line *)


(** X13.  In command entry, every key but Enter (line feed or carriage
    return) is handled without touching the document: the buffer, the
    cursor, the scroll offset, the dirty flag, the target and the files are
    as before, and the editor stays in the loop of [main].  Escape leaves
    command entry with an empty command line. *)
Theorem command_entry_never_edits (i : input) (s : TinyconfEditor) :
  command_mode s = true → key i ∉ [10; 13] →
  ∃ s', dispatch i s = Some (Running, s') ∧
        same_view s s' ∧ unsaved s' = unsaved s ∧ filepath s' = filepath s ∧
        files s' = files s ∧ writes s' = writes s ∧
        (key i = 27 → command_mode s' = false ∧ command_input s' = []).
Proof.
  intros Hm Hkey. unfold dispatch. rewrite Hm.
  rewrite decide_False by done.
  repeat case_decide; eexists; (split; [reflexivity |]); simpl;
    repeat split; try done; lia.
Qed.

(** X13 for the right arrow and for Escape after [/] and [q] were typed
    into the two lines "ab" and "cd". *)
Lemma command_entry_never_edits_witness :
  let s := set_command_input (py "q") (set_command_mode true two_lines) in
  (∃ s', dispatch (Input 24 Curses.KEY_RIGHT 0 0) s = Some (Running, s') ∧
         same_view s s') ∧
  (∃ s', dispatch (Input 24 27 0 0) s = Some (Running, s') ∧
         command_mode s' = false ∧ command_input s' = []).
Proof.
  intros s. split.
  - destruct (command_entry_never_edits (Input 24 Curses.KEY_RIGHT 0 0) s)
      as (s' & E & Hv & _); [done | |].
    { rewrite !not_elem_of_cons. repeat split; try done. apply not_elem_of_nil. }
    exists s'. split; [exact E | exact Hv].
  - destruct (command_entry_never_edits (Input 24 27 0 0) s)
      as (s' & E & _ & _ & _ & _ & _ & Hesc); [done | |].
    { rewrite !not_elem_of_cons. repeat split; try done. apply not_elem_of_nil. }
    exists s'. split; [exact E |]. by apply Hesc.
Defined.



(** ** Commands in a session *)

Lemma text_same s s' :
  buffer s' = buffer s → cursor_y s' = cursor_y s → cursor_x s' = cursor_x s →
  text_before s' = text_before s ∧ text_after s' = text_after s ∧
  document s' = document s.
Proof.
  intros Hb Hy Hx. unfold text_before, text_after, document, current_line.
  by rewrite Hb, Hy, Hx.
Qed.

(** A round of [main] on a valid state comes down to the handling of the
    key on a valid state with the same document and the same cursor. *)
Lemma main_round_keeps i s :
  inv s →
  ∃ d, main_round i s = dispatch i d ∧ inv d ∧ same_document s d ∧
       cursor_y d = cursor_y s ∧ cursor_x d = cursor_x s.
Proof.
  intros Hinv. unfold main_round. destruct (draw_ok (rows i) s Hinv) as [E Hd].
  rewrite E. set (d := set_scroll_offset _ s) in *.
  exists (tick d). split; [reflexivity |].
  pose proof (tick_view d) as (_ & Hy & Hx & _).
  pose proof (draw_document _ _ _ E) as (? & ? & ? & ? & ? & ? & ?).
  pose proof (tick_document d) as (? & ? & ? & ? & ? & ? & ?).
  split; [eapply inv_same_view; [apply tick_view | done] |].
  split; [unfold same_document; repeat split; congruence |].
  by rewrite Hy, Hx.
Qed.

Lemma dispatch_command_key i s :
  command_mode s = true → 0 ≤ key i < 256 →
  key i ∉ [10; 13; 27; 127] →
  dispatch i s = Some (Running, set_command_input (command_input s ++ [key i]) s).
Proof.
  intros Hm Hrange Hnot. rewrite !not_elem_of_cons in Hnot.
  destruct Hnot as (N10 & N13 & N27 & N127 & _).
  unfold dispatch. rewrite Hm.
  rewrite decide_False by (rewrite !not_elem_of_cons; repeat split; try done; apply not_elem_of_nil).
  rewrite decide_False by done.
  rewrite decide_False
    by (rewrite !not_elem_of_cons; unfold Curses.KEY_BACKSPACE;
        repeat split; try apply not_elem_of_nil; lia).
  by rewrite decide_True by done.
Qed.

(** The state in which a one-character command is about to be evaluated:
    after [/] and the character, at the handling of Enter. *)
Lemma command_typed (s : TinyconfEditor) (i1 i2 i3 : input) :
  inv s → command_mode s = false →
  key i1 = 47 → 0 ≤ key i2 < 256 → key i2 ∉ [10; 13; 27; 127] → key i3 ∈ [10; 13] →
  ∃ d, run [i1; i2; i3] Running s = handle_command (rows i3) d ∧
       inv d ∧ command_input d = [key i2] ∧
       buffer d = buffer s ∧ cursor_y d = cursor_y s ∧ cursor_x d = cursor_x s ∧
       filepath d = filepath s ∧ unsaved d = unsaved s ∧
       files d = files s ∧ writes d = writes s.
Proof.
  intros Hinv Hmode K1 K2 K2' K3. simpl.
  destruct (main_round_keeps i1 s Hinv) as (d1 & -> & Hinv1 & Hdoc1 & Hy1 & Hx1).
  destruct Hdoc1 as (Hb1 & Hf1 & Hu1 & Hm1 & Hc1 & Hfs1 & Hw1).
  rewrite dispatch_slash by congruence. simpl.
  set (s2 := set_command_input [] (set_command_mode true d1)).
  assert (Hinv2 : inv s2) by (by apply (inv_same_view d1)).
  destruct (main_round_keeps i2 s2 Hinv2) as (d2 & -> & Hinv3 & Hdoc2 & Hy2 & Hx2).
  destruct Hdoc2 as (Hb2 & Hf2 & Hu2 & Hm2 & Hc2 & Hfs2 & Hw2).
  rewrite dispatch_command_key by done. simpl.
  set (s3 := set_command_input (command_input d2 ++ [key i2]) d2).
  assert (Hinv4 : inv s3) by (by apply (inv_same_view d2)).
  destruct (main_round_keeps i3 s3 Hinv4) as (d3 & -> & Hinv5 & Hdoc3 & Hy3 & Hx3).
  destruct Hdoc3 as (Hb3 & Hf3 & Hu3 & Hm3 & Hc3 & Hfs3 & Hw3).
  assert (Hmode3 : command_mode d3 = true) by (by rewrite Hm3; simpl; rewrite Hm2).
  rewrite dispatch_command_enter by done.
  destruct (handle_command (rows i3) d3) as [[c' s'] |] eqn:E.
  - exists d3. rewrite E. split; [done |]. split; [done |].
    subst s2 s3. simpl in *. rewrite Hc3, Hc2. simpl.
    repeat split; congruence.
  - destruct (handle_command_ok (rows i3) d3 Hinv5) as (? & ? & E' & _). congruence.
Qed.

(** X15.  In a valid state outside command entry, the keys [/], [/] and
    Enter put a slash into the document at the cursor, as [insert] does,
    and leave the editor outside command entry with the dirty flag set. *)
Theorem slash_command_types_a_slash (s : TinyconfEditor) (i1 i2 i3 : input) :
  cursor_ok s → 0 ≤ scroll_offset s → command_mode s = false →
  key i1 = 47 → key i2 = 47 → key i3 ∈ [10; 13] →
  ∃ s', run [i1; i2; i3] Running s = Some (Running, s') ∧
        document s' = text_before s ++ 47 :: text_after s ∧
        text_before s' = text_before s ++ [47] ∧
        text_after s' = text_after s ∧
        command_mode s' = false ∧ command_input s' = [] ∧ unsaved s' = true.
Proof.
  intros Hok Hso Hmode K1 K2 K3.
  destruct (command_typed s i1 i2 i3) as (d & -> & Hinv & Hc & Hb & Hy & Hx & _);
    [done | done | done | lia | | done |].
  { rewrite K2, !not_elem_of_cons. repeat split; try done. apply not_elem_of_nil. }
  unfold handle_command. rewrite Hc, K2.
  rewrite decide_True by done.
  destruct (insert_text 47 d) as (s1 & E & _ & Hdoc & Hbefore & Hafter & Hu);
    [apply Hinv |].
  change (py "/") with [47]. rewrite E. simpl.
  destruct (text_same s d Hb Hy Hx) as (Tb & Ta & _).
  eexists. split; [reflexivity |].
  destruct (text_same s1 (handle_command_done s1)) as (Tb' & Ta' & Td'); try done.
  rewrite Tb', Ta', Td', Hdoc, Hbefore, Hafter, Tb, Ta. done.
Qed.

(** X15 on the two lines "ab" and "cd" with the cursor at (0, 0). *)
Lemma slash_command_types_a_slash_witness :
  ∃ s', run (typing 24 (py "//" ++ [10])) Running two_lines = Some (Running, s') ∧
        document s' = text_before two_lines ++ 47 :: text_after two_lines ∧
        text_before s' = text_before two_lines ++ [47] ∧
        text_after s' = text_after two_lines ∧
        command_mode s' = false ∧ command_input s' = [] ∧ unsaved s' = true.
Proof.
  apply (slash_command_types_a_slash two_lines
           (Input 24 47 0 0) (Input 24 47 0 0) (Input 24 10 0 0)).
  - split; [done |]. exists (py "ab"). split; [reflexivity | done].
  - done.
  - done.
  - done.
  - done.
  - by left.
Defined.

(** X16.  In a valid state outside command entry with no unsaved change,
    the keys [/], [q] and Enter end the session at once: nothing is asked,
    nothing is written, and the buffer is as it was. *)
Theorem quit_without_changes_exits (s : TinyconfEditor) (i1 i2 i3 : input) :
  cursor_ok s → 0 ≤ scroll_offset s → command_mode s = false → unsaved s = false →
  key i1 = 47 → key i2 = 113 → key i3 ∈ [10; 13] →
  ∃ s', run [i1; i2; i3] Running s = Some (Exited, s') ∧
        writes s' = writes s ∧ files s' = files s ∧
        buffer s' = buffer s ∧ unsaved s' = false.
Proof.
  intros Hok Hso Hmode Hclean K1 K2 K3.
  destruct (command_typed s i1 i2 i3)
    as (d & -> & Hinv & Hc & Hb & Hy & Hx & Hf & Hu & Hfs & Hw);
    [done | done | done | lia | | done |].
  { rewrite K2, !not_elem_of_cons. repeat split; try done. apply not_elem_of_nil. }
  unfold handle_command. rewrite Hc, K2.
  rewrite decide_False by done. rewrite decide_True by done.
  rewrite Hu, Hclean. simpl.
  eexists. split; [reflexivity |].
  unfold main_exit. rewrite Hu, Hclean.
  destruct (target (filepath d)); repeat split; congruence.
Qed.

(** X16 on the two lines "ab" and "cd" as loaded. *)
Lemma quit_without_changes_exits_witness :
  ∃ s', run (typing 24 (py "/q" ++ [10])) Running two_lines = Some (Exited, s') ∧
        writes s' = writes two_lines ∧ files s' = files two_lines ∧
        buffer s' = buffer two_lines ∧ unsaved s' = false.
Proof.
  apply (quit_without_changes_exits two_lines
           (Input 24 47 0 0) (Input 24 113 0 0) (Input 24 10 0 0)).
  - split; [done |]. exists (py "ab"). split; [reflexivity | done].
  - done.
  - done.
  - done.
  - done.
  - done.
  - by left.
Defined.

Lemma run_app ins1 ins2 c s :
  run (ins1 ++ ins2) c s =
  match run ins1 c s with
  | Some (c', s') => run ins2 c' s'
  | None => None
  end.
Proof.
  revert c s. induction ins1 as [| i ins1 IH]; intros c s; simpl; [done |].
  destruct (step i c s) as [[c' s'] |]; [apply IH | done].
Qed.

(** The quit command with unsaved changes: the state in which the
    confirmation waits for its key. *)
Lemma quit_with_changes_prompts (s : TinyconfEditor) (i1 i2 i3 : input) :
  inv s → command_mode s = false → unsaved s = true →
  key i1 = 47 → key i2 = 113 → key i3 ∈ [10; 13] →
  ∃ p, run [i1; i2; i3] Running s = Some (Prompting, p) ∧
       buffer p = buffer s ∧ cursor_y p = cursor_y s ∧ cursor_x p = cursor_x s ∧
       filepath p = filepath s ∧ unsaved p = true ∧
       files p = files s ∧ writes p = writes s.
Proof.
  intros Hinv Hmode Hdirty K1 K2 K3.
  destruct (command_typed s i1 i2 i3)
    as (d & -> & Hinvd & Hc & Hb & Hy & Hx & Hf & Hu & Hfs & Hw);
    [done | done | done | lia | | done |].
  { rewrite K2, !not_elem_of_cons. repeat split; try done. apply not_elem_of_nil. }
  unfold handle_command. rewrite Hc, K2.
  rewrite decide_False by done. rewrite decide_True by done.
  rewrite Hu, Hdirty. simpl.
  set (d' := set_status _ d).
  destruct (draw_ok (rows i3) d') as [-> _]; [by apply (inv_same_view d) |].
  simpl. eexists. split; [reflexivity |]. simpl. repeat split; congruence.
Qed.

(** X17.  In a valid state outside command entry with unsaved changes, the
    keys [/], [q], Enter and then Escape at the confirmation bring the
    editor back to normal editing: the buffer, the cursor, the files and the
    dirty flag are as before and nothing was written. *)
Theorem escape_cancels_quit (s : TinyconfEditor) (i1 i2 i3 i4 : input) :
  cursor_ok s → 0 ≤ scroll_offset s → command_mode s = false → unsaved s = true →
  key i1 = 47 → key i2 = 113 → key i3 ∈ [10; 13] → key i4 = 27 →
  ∃ s', run [i1; i2; i3; i4] Running s = Some (Running, s') ∧
        buffer s' = buffer s ∧ cursor_y s' = cursor_y s ∧ cursor_x s' = cursor_x s ∧
        unsaved s' = true ∧ files s' = files s ∧ writes s' = writes s ∧
        command_mode s' = false ∧ command_input s' = [].
Proof.
  intros Hok Hso Hmode Hdirty K1 K2 K3 K4.
  destruct (quit_with_changes_prompts s i1 i2 i3)
    as (p & E & Hb & Hy & Hx & Hf & Hu & Hfs & Hw); try done.
  change [i1; i2; i3; i4] with ([i1; i2; i3] ++ [i4]).
  rewrite run_app, E. simpl. unfold prompt_save_key. rewrite K4. simpl.
  eexists. split; [reflexivity |]. simpl. repeat split; congruence.
Qed.

(** X17 on the two lines "ab" and "cd" with the dirty flag set. *)
Lemma escape_cancels_quit_witness :
  let s := set_unsaved true two_lines in
  ∃ s', run (typing 24 (py "/q" ++ [10; 27])) Running s = Some (Running, s') ∧
        buffer s' = buffer s ∧ unsaved s' = true ∧ writes s' = [].
Proof.
  intros s.
  destruct (escape_cancels_quit s (Input 24 47 0 0) (Input 24 113 0 0)
              (Input 24 10 0 0) (Input 24 27 0 0))
    as (s' & E & Hb & _ & _ & Hu & _ & Hw & _).
  - split; [done |]. exists (py "ab"). split; [reflexivity | done].
  - done.
  - reflexivity.
  - reflexivity.
  - reflexivity.
  - reflexivity.
  - by left.
  - reflexivity.
  - exists s'. split; [exact E |]. split; [exact Hb |]. split; [exact Hu | exact Hw].
Defined.

(** X18.  In a valid state outside command entry with unsaved changes and a
    file target, the keys [/], [q], Enter and then [y] or [Y] end the
    session with exactly one write: the document goes to the target, once,
    and the dirty flag is cleared. *)
Theorem yes_saves_once_and_exits (s : TinyconfEditor) (i1 i2 i3 i4 : input) (p : string) :
  cursor_ok s → 0 ≤ scroll_offset s → command_mode s = false → unsaved s = true →
  target (filepath s) = Some p →
  key i1 = 47 → key i2 = 113 → key i3 ∈ [10; 13] → key i4 ∈ [121; 89] →
  ∃ s', run [i1; i2; i3; i4] Running s = Some (Exited, s') ∧
        writes s' = (p, document s) :: writes s ∧
        files s' = <[p := document s]> (files s) ∧
        unsaved s' = false ∧ buffer s' = buffer s.
Proof.
  intros Hok Hso Hmode Hdirty Hp K1 K2 K3 K4.
  destruct (quit_with_changes_prompts s i1 i2 i3)
    as (q & E & Hb & Hy & Hx & Hf & Hu & Hfs & Hw); try done.
  change [i1; i2; i3; i4] with ([i1; i2; i3] ++ [i4]).
  rewrite run_app, E. simpl. unfold prompt_save_key.
  assert (key i4 = 121 ∨ key i4 = 89) as K4'
    by (rewrite !elem_of_cons, elem_of_nil in K4; tauto).
  rewrite decide_False by (destruct K4' as [-> | ->]; done).
  rewrite decide_True by done. simpl.
  destruct (save_file_with_target q p) as (Hw' & Hfs' & Hu' & Hb' & Hf');
    [by rewrite Hf |].
  unfold main_exit. rewrite Hf', Hf, Hp, Hu'.
  eexists. split; [reflexivity |].
  unfold document. rewrite Hw', Hfs', Hb', Hb, Hfs, Hw. done.
Qed.

(** X18 on the two lines "ab" and "cd" of the file "f" with the dirty flag
    set. *)
Lemma yes_saves_once_and_exits_witness :
  let s := set_unsaved true two_lines in
  ∃ s', run (typing 24 (py "/q" ++ [10] ++ py "y")) Running s = Some (Exited, s') ∧
        writes s' = [("f", py "ab" ++ [10] ++ py "cd")] ∧ unsaved s' = false.
Proof.
  intros s.
  destruct (yes_saves_once_and_exits s (Input 24 47 0 0) (Input 24 113 0 0)
              (Input 24 10 0 0) (Input 24 121 0 0) "f")
    as (s' & E & Hw & _ & Hu & _).
  - split; [done |]. exists (py "ab"). split; [reflexivity | done].
  - done.
  - reflexivity.
  - reflexivity.
  - vm_compute. reflexivity.
  - reflexivity.
  - reflexivity.
  - by left.
  - by left.
  - exists s'. split; [exact E |]. split; [exact Hw | exact Hu].
Defined.

(** X19.  In a valid state outside command entry with unsaved changes and
    no file target, the keys [/], [q], Enter and then any of [y], [Y], [n],
    [N] end the session with nothing written: the changes are lost. *)
Theorem quit_without_target_writes_nothing (s : TinyconfEditor) (i1 i2 i3 i4 : input) :
  cursor_ok s → 0 ≤ scroll_offset s → command_mode s = false → unsaved s = true →
  target (filepath s) = None →
  key i1 = 47 → key i2 = 113 → key i3 ∈ [10; 13] → key i4 ∈ [121; 89; 110; 78] →
  ∃ s', run [i1; i2; i3; i4] Running s = Some (Exited, s') ∧
        writes s' = writes s ∧ files s' = files s ∧ unsaved s' = true.
Proof.
  intros Hok Hso Hmode Hdirty Hp K1 K2 K3 K4.
  destruct (quit_with_changes_prompts s i1 i2 i3)
    as (q & E & Hb & Hy & Hx & Hf & Hu & Hfs & Hw); try done.
  change [i1; i2; i3; i4] with ([i1; i2; i3] ++ [i4]).
  rewrite run_app, E. simpl. unfold prompt_save_key.
  assert (Hq : target (filepath q) = None) by (by rewrite Hf).
  assert (key i4 = 121 ∨ key i4 = 89 ∨ key i4 = 110 ∨ key i4 = 78) as K4'
    by (rewrite !elem_of_cons, elem_of_nil in K4; tauto).
  destruct K4' as [-> | [-> | [-> | ->]]]; simpl;
    rewrite ?(save_file_without_target q Hq); unfold main_exit; rewrite Hq;
    (eexists; split; [reflexivity |]); by repeat split.
Qed.

(** X19 on a buffer opened with no path, with the dirty flag set. *)
Lemma quit_without_target_writes_nothing_witness :
  let s := set_unsaved true (init ∅ None) in
  ∃ s', run (typing 24 (py "/q" ++ [10] ++ py "y")) Running s = Some (Exited, s') ∧
        writes s' = [] ∧ files s' = ∅ ∧ unsaved s' = true.
Proof.
  intros s.
  destruct (quit_without_target_writes_nothing s (Input 24 47 0 0) (Input 24 113 0 0)
              (Input 24 10 0 0) (Input 24 121 0 0))
    as (s' & E & Hw & Hfs & Hu).
  - split; [done |]. exists []. split; [reflexivity | done].
  - done.
  - reflexivity.
  - reflexivity.
  - reflexivity.
  - reflexivity.
  - reflexivity.
  - by left.
  - by left.
  - exists s'. split; [exact E |]. split; [exact Hw |]. split; [exact Hfs | exact Hu].
Defined.

(** ** Files, dirty flag and countdown over a whole session *)

Lemma quiet_refl s : quiet s s.
Proof. unfold quiet. repeat split; by right. Qed.

Lemma quiet_trans s1 s2 s3 : quiet s1 s2 → quiet s2 s3 → quiet s1 s3.
Proof.
  intros (Hf1 & Hfs1 & Hw1 & Ht1 & Hu1) (Hf2 & Hfs2 & Hw2 & Ht2 & Hu2).
  unfold quiet. repeat split; try congruence.
  destruct Hu2 as [? | [Hu2 Hb2]]; [by left |].
  destruct Hu1 as [? | [Hu1 Hb1]]; [left; congruence | right; split; congruence].
Qed.

Lemma session_inv_quiet fs fp s s' :
  quiet s s' → session_inv fs fp s → session_inv fs fp s'.
Proof.
  intros (Hf & Hfs & Hw & Ht & Hu) (If & Iw & Io & Ie & Ic & It).
  unfold session_inv, document. rewrite Hf, Hfs, Hw, Ht.
  repeat split; try done; try lia.
  intros Hclean. destruct Hu as [Hu | [Hu Hb]]; [congruence |].
  rewrite Hb. apply Ic. congruence.
Qed.

Lemma session_inv_save fs fp s :
  session_inv fs fp s → session_inv fs fp (save_file s).
Proof.
  intros (If & Iw & Io & Ie & Ic & It). unfold save_file.
  destruct (target (filepath s)) as [p |] eqn:Hp; [| done].
  rewrite If in Hp. unfold session_inv, document. simpl.
  split; [done |]. split; [by constructor |]. split.
  { intros q Hq. rewrite lookup_insert_ne by congruence. by apply Io. }
  split; [done |]. split; [| lia].
  intros _. right. exists p. split; [done |]. apply lookup_insert_eq.
Qed.

Lemma session_inv_status fs fp s st t :
  0 ≤ t ≤ 20 → session_inv fs fp s →
  session_inv fs fp (set_status_timer t (set_status st s)).
Proof.
  intros Ht (If & Iw & Io & Ie & Ic & It).
  unfold session_inv, document. simpl. repeat split; try done; lia.
Qed.

Lemma session_inv_tick fs fp s : session_inv fs fp s → session_inv fs fp (tick s).
Proof.
  intros (If & Iw & Io & Ie & Ic & It). unfold tick.
  repeat case_decide; repeat split; simpl in *; try done; lia.
Qed.

Lemma draw_quiet h s s' : draw h s = Some s' → quiet s s'.
Proof.
  unfold draw. intros H.
  destruct (draw_lines _ _); simpl in H; [| done].
  destruct (Py.get _ _); simplify_eq/=. unfold quiet. simpl.
  repeat split; by right.
Qed.

Lemma insert_quiet ch s s' : insert ch s = Some s' → quiet s s'.
Proof.
  unfold insert. intros H.
  destruct (Py.get _ _); simpl in H; [| done].
  destruct (Py.set _ _ _); simplify_eq/=. unfold quiet. simpl.
  repeat split; by left.
Qed.

Lemma newline_quiet s s' : newline s = Some s' → quiet s s'.
Proof.
  unfold newline. intros H.
  destruct (Py.get _ _); simpl in H; [| done].
  destruct (Py.set _ _ _); simplify_eq/=. unfold quiet. simpl.
  repeat split; by left.
Qed.

Lemma backspace_quiet s s' : backspace s = Some s' → quiet s s'.
Proof.
  unfold backspace. intros H.
  match type of H with (?m ≫= _) = _ => destruct m as [s1 |] eqn:E1 end;
    [| done].
  simpl in H. injection H as <-.
  assert (filepath s1 = filepath s ∧ files s1 = files s ∧ writes s1 = writes s ∧
          status_timer s1 = status_timer s) as (? & ? & ? & ?).
  { repeat case_decide; simplify_option_eq; done. }
  unfold quiet. simpl. repeat split; try done. by left.
Qed.

Lemma move_cursor_frame k s s' :
  move_cursor k s = Some s' → only_cursor_differs s s'.
Proof.
  intros H. unfold move_cursor in H.
  match type of H with (?m ≫= _) = _ => destruct m as [s1 |] eqn:E1 end;
    [| done]. simpl in H.
  assert (H1 : only_cursor_differs s s1).
  { repeat case_decide; simplify_option_eq; try done;
      repeat case_decide; simplify_option_eq; done. }
  clear E1. destruct (Py.get (buffer s1) (cursor_y s1)); simplify_eq/=.
  destruct H1 as (? & ? & ? & ? & ? & ? & ? & ? & ? & ? & ?).
  by repeat split.
Qed.

Lemma only_cursor_quiet s s' : only_cursor_differs s s' → quiet s s'.
Proof.
  intros (? & ? & ? & ? & ? & ? & ? & ? & ? & ? & ?).
  unfold quiet. repeat split; try done. by right.
Qed.

Lemma click_quiet i s s' : click i s = Some s' → quiet s s'.
Proof.
  unfold click. intros H.
  repeat case_decide; simplify_option_eq; try apply quiet_refl.
  unfold quiet. simpl. repeat split; by right.
Qed.

Lemma main_exit_session fs fp s :
  session_inv fs fp s → session_inv fs fp (main_exit s).
Proof.
  intros Hs. unfold main_exit. destruct (target (filepath s)); [| done].
  destruct (unsaved s); [by apply session_inv_save | done].
Qed.

Lemma handle_command_session fs fp h s c' s' :
  handle_command h s = Some (c', s') → session_inv fs fp s → session_inv fs fp s'.
Proof.
  unfold handle_command. intros H Hs.
  assert (Hdone : ∀ x, session_inv fs fp x → session_inv fs fp (handle_command_done x)).
  { intros x. apply session_inv_quiet. unfold quiet. simpl. repeat split; by right. }
  repeat case_decide.
  - destruct (insert (py "/") s) as [s1 |] eqn:E; simplify_eq/=.
    apply Hdone. eapply session_inv_quiet; [by eapply insert_quiet | done].
  - destruct (unsaved s); simpl in H.
    + destruct (draw h _) as [s1 |] eqn:E; simplify_eq/=.
      eapply session_inv_quiet; [by eapply draw_quiet |].
      eapply session_inv_quiet; [| exact Hs].
      unfold quiet. simpl. repeat split; by right.
    + simplify_eq. by apply main_exit_session.
  - simplify_eq. by apply Hdone, session_inv_save.
  - simplify_eq. by apply Hdone.
Qed.

Lemma dispatch_session fs fp i s c' s' :
  dispatch i s = Some (c', s') → session_inv fs fp s → session_inv fs fp s'.
Proof.
  unfold dispatch. intros H Hs.
  assert (Hq : ∀ x, quiet s x → session_inv fs fp x)
    by (intros x Hx; by eapply session_inv_quiet).
  destruct (command_mode s).
  { destruct (decide (key i ∈ [10; 13])); [by eapply handle_command_session |].
    repeat case_decide; simplify_eq; apply Hq; unfold quiet; simpl;
      repeat split; by right. }
  repeat case_decide.
  - simplify_eq. apply Hq. unfold quiet. simpl. repeat split; by right.
  - destruct (backspace s) eqn:E; simplify_eq/=. by apply Hq, backspace_quiet.
  - destruct (newline s) eqn:E; simplify_eq/=. by apply Hq, newline_quiet.
  - destruct (move_cursor (key i) s) eqn:E; simplify_eq/=.
    by eapply Hq, only_cursor_quiet, move_cursor_frame.
  - destruct (click i s) eqn:E; simplify_eq/=. by eapply Hq, click_quiet.
  - destruct (insert [key i] s) eqn:E; simplify_eq/=. by eapply Hq, insert_quiet.
  - by simplify_eq.
Qed.

Lemma step_session fs fp i c s c' s' :
  step i c s = Some (c', s') → session_inv fs fp s → session_inv fs fp s'.
Proof.
  intros H Hs. destruct c; simpl in H.
  - unfold main_round in H. destruct (draw (rows i) s) as [d |] eqn:E; [| done].
    simpl in H. eapply dispatch_session; [exact H |].
    apply session_inv_tick. eapply session_inv_quiet; [by eapply draw_quiet | done].
  - unfold prompt_save_key in H. repeat case_decide; simplify_eq/=.
    + apply (session_inv_quiet _ _ (set_status_timer 20 (set_status (py "Canceled.") s)));
        [unfold quiet; simpl; repeat split; by right |].
      by apply session_inv_status.
    + by apply main_exit_session, session_inv_save.
    + by apply main_exit_session.
    + done.
  - by simplify_eq.
Qed.

Lemma init_session fs fp : session_inv fs fp (init fs fp).
Proof. unfold session_inv. simpl. repeat split; try done. by left. Qed.

Lemma run_session fs fp ins : ∀ c s c' s',
  run ins c s = Some (c', s') → session_inv fs fp s → session_inv fs fp s'.
Proof.
  induction ins as [| i ins IH]; intros c s c' s' H Hs; simpl in H.
  - by simplify_eq.
  - destruct (step i c s) as [[c1 s1] |] eqn:E; [| done].
    eapply IH; [exact H |]. by eapply step_session.
Qed.

Lemma session_summary fs fp ins :
  ∃ c s, run ins Running (init fs fp) = Some (c, s) ∧ session_inv fs fp s.
Proof.
  destruct (run_ok ins Running (init fs fp) (init_inv fs fp)) as (c & s & E & _).
  exists c, s. split; [exact E |]. eapply run_session; [exact E | apply init_session].
Qed.




(** X22.  Whatever the inputs, a session handles every input, and at the
    end a cleared dirty flag tells the truth: the buffer is then the one the
    session started with, or the target file holds exactly the text that
    [save_file] writes for the buffer. *)
Theorem clean_flag_means_nothing_to_save
    (fs : gmap string pystr) (fp : option string) (ins : list input) :
  ∃ c s, run ins Running (init fs fp) = Some (c, s) ∧
         (unsaved s = false →
            buffer s = buffer (init fs fp) ∨
            ∃ p, target fp = Some p ∧ files s !! p = Some (Py.join [10] (buffer s))).
Proof.
  destruct (session_summary fs fp ins) as (c & s & E & _ & _ & _ & _ & Ic & _).
  exists c, s. split; [exact E | exact Ic].
Qed.

(** X23.  Whatever the inputs, the countdown of the status line is between
    0 and 20 at the end: a message of [save_file] or of a cancelled quit is
    shown for at most 20 renders. *)
Theorem status_timer_within_bounds
    (fs : gmap string pystr) (fp : option string) (ins : list input) :
  ∃ c s, run ins Running (init fs fp) = Some (c, s) ∧ 0 ≤ status_timer s ≤ 20.
Proof.
  destruct (session_summary fs fp ins) as (c & s & E & _ & _ & _ & _ & _ & It).
  exists c, s. split; [exact E | exact It].
Qed.

(** ** Loading *)

Lemma splitlines_from_lines_plain s : ∀ b cur,
  plain cur → Forall plain (Py.splitlines_from b cur s).
Proof.
  induction s as [| c s IH]; intros b cur Hcur; simpl.
  - destruct cur; [apply Forall_nil_2 |].
    apply Forall_cons_2; [exact Hcur | apply Forall_nil_2].
  - destruct (b && bool_decide (c = 10)); [by apply IH |].
    destruct (Py.linebreak c) eqn:Hc.
    + apply Forall_cons_2; [exact Hcur |]. apply IH. apply Forall_nil_2.
    + apply IH. apply Forall_app. split; [exact Hcur |].
      apply Forall_cons_2; [exact Hc | apply Forall_nil_2].
Qed.

(** X24.  Whatever the text of the file, the buffer that [__init__] loads
    from it has at least one line, and no line of it contains a character
    at which [splitlines] breaks a line (line feed, carriage return and the
    eight others). *)
Theorem loaded_lines_have_no_line_break (text : pystr) :
  load text ≠ [] ∧ Forall plain (load text).
Proof.
  split; [apply load_nonempty |]. unfold load.
  pose proof (splitlines_from_lines_plain (read_file text) false [] (Forall_nil_2 _)) as H.
  fold (Py.splitlines (read_file text)) in H.
  destruct (Py.splitlines (read_file text)); [| done].
  apply Forall_cons_2; apply Forall_nil_2.
Qed.

(** ** Rendering once and twice *)

Lemma reconcile_twice visible_height s :
  1 ≤ visible_height →
  reconcile visible_height (reconcile visible_height s) = reconcile visible_height s.
Proof.
  intros Hvh. unfold reconcile. simpl.
  pose proof (len_nonneg (buffer s)) as Hn.
  set (n := Py.len (buffer s)) in *.
  set (cy := Z.max 0 (Z.min (cursor_y s) (n - 1))).
  set (so1 := Z.min (scroll_offset s) (Z.max 0 (n - visible_height))).
  set (so2 := if decide (cy < so1) then cy
              else if decide (cy >= so1 + visible_height) then cy - visible_height + 1
              else so1).
  assert (Hcy : Z.max 0 (Z.min cy (n - 1)) = cy) by lia.
  assert (Hso : Z.min so2 (Z.max 0 (n - visible_height)) = so2)
    by (subst so2; repeat case_decide; lia).
  rewrite Hcy, Hso.
  assert (Hstay : (if decide (cy < so2) then cy
                   else if decide (cy >= so2 + visible_height) then cy - visible_height + 1
                   else so2) = so2)
    by (subst so2; repeat case_decide; lia).
  by rewrite Hstay.
Qed.

Lemma draw_lines_same s s' range :
  buffer s' = buffer s → scroll_offset s' = scroll_offset s →
  draw_lines s' range = draw_lines s range.
Proof.
  intros Hb Hso. induction range as [| i range IH]; simpl; [done |].
  rewrite Hb, Hso. case_decide; [done |].
  destruct (Py.get _ _); simpl; [exact IH | done].
Qed.



(** X26.  On a terminal of at least two rows, rendering twice is rendering
    once: whatever the state, if [draw] returns then [draw] on its result
    returns that same result. *)
Theorem draw_twice_is_draw_once (h : Z) (s s' : TinyconfEditor) :
  2 ≤ h → draw h s = Some s' → draw h s' = Some s'.
Proof.
  intros Hh E. unfold draw in E.
  set (r := reconcile (h - 1) s) in *.
  apply bind_Some in E as ([] & El & E).
  apply bind_Some in E as (line & Eg & E).
  set (x := Z.min (cursor_x r) (Py.len line)) in *.
  assert (s' = set_cursor_x x r) as -> by congruence. clear E.
  assert (Hr : reconcile (h - 1) (set_cursor_x x r) = set_cursor_x x r).
  { transitivity (set_cursor_x x (reconcile (h - 1) r)); [reflexivity |].
    subst r. by rewrite reconcile_twice by lia. }
  unfold draw. cbv zeta. rewrite Hr.
  apply bind_Some. exists (). split.
  { by rewrite (draw_lines_same r (set_cursor_x x r)). }
  apply bind_Some. exists line. split; [exact Eg |].
  f_equal. apply editor_eq; simpl; try done. subst x. lia.
Qed.

(** X26 on a terminal of 24 rows, for a state whose cursor is far outside
    the buffer. *)
Lemma draw_twice_is_draw_once_witness :
  ∃ s', draw 24 (set_cursor_x 9 (set_cursor_y 40 two_lines)) = Some s' ∧
        draw 24 s' = Some s'.
Proof.
  eexists. split; [vm_compute; reflexivity |].
  eapply (draw_twice_is_draw_once 24 (set_cursor_x 9 (set_cursor_y 40 two_lines)));
    [lia | vm_compute; reflexivity].
Defined.

(** ** Starting up *)

(** X27.  Without the version flag, [run_tinyconf] starts an editor on the
    path it was given, with nothing written by the editor and the dirty
    flag clear.  A target file that exists is left as it is and its lines
    are the buffer; a target file that is missing is created empty and the
    buffer is one empty line; every other file is untouched.  With the
    version flag it prints the version and starts nothing. *)
Theorem run_tinyconf_prepares_the_target (file : option string) (fs : gmap string pystr) :
  run_tinyconf file true fs = PrintedVersion "0.1.0" ∧
  ∃ s, run_tinyconf file false fs = Editing s ∧
       filepath s = file ∧ writes s = [] ∧ unsaved s = false ∧
       (∀ q, target file ≠ Some q → files s !! q = fs !! q) ∧
       (∀ p text, target file = Some p → fs !! p = Some text →
          files s !! p = Some text ∧ buffer s = load text) ∧
       (∀ p, target file = Some p → fs !! p = None →
          files s !! p = Some [] ∧ buffer s = [[]]) ∧
       (target file = None → files s = fs ∧ buffer s = [[]]).
Proof.
  split; [done |]. unfold run_tinyconf. eexists. split; [reflexivity |].
  unfold init. simpl.
  destruct (target file) as [p |] eqn:Hp.
  - destruct (fs !! p) as [text |] eqn:Hfile.
    + rewrite Hfile. repeat split; try done; intros; simplify_eq; try done.
      all: by rewrite Hfile.
    + rewrite lookup_insert_eq. repeat split; try done.
      * intros q Hq. rewrite lookup_insert_ne by congruence. done.
      * intros; simplify_eq.
      * intros; simplify_eq.
      * intros; simplify_eq. apply lookup_insert_eq.
  - repeat split; try done.
Qed.

(** ** The terminal's flow control *)

(** X28.  On a terminal, [disable_flow_control] returns whenever entry 3 of
    the attributes is an integer; it keeps the length of the list and every
    entry but entry 3 (entry 0 among them), and in entry 3 it clears exactly
    the bits set in one of [IXON], [IXOFF], [IXANY], keeping every other
    bit.  When standard input is no terminal nothing is set. *)
Theorem disable_flow_control_clears_bits_of_entry_3 {C : Type}
    (IXON IXOFF IXANY : Z) (attrs : list (tty_attr C)) (z : Z) :
  Py.get attrs 3 = Some (Flags z) →
  disable_flow_control IXON IXOFF IXANY false attrs = Some attrs ∧
  ∃ z', disable_flow_control IXON IXOFF IXANY true attrs
          = Some (<[3%nat := Flags z']> attrs) ∧
        attrs !! 3%nat = Some (Flags z) ∧
        (∀ j, j ≠ 3%nat → <[3%nat := Flags z']> attrs !! j = attrs !! j) ∧
        length (<[3%nat := Flags z']> attrs) = length attrs ∧
        ∀ n, 0 ≤ n →
          Z.testbit z' n =
          Z.testbit z n && negb (Z.testbit IXON n || Z.testbit IXOFF n || Z.testbit IXANY n).
Proof.
  intros Hget. split; [done |].
  pose proof (get_Some_range attrs 3 (Flags z) ltac:(lia) Hget) as Hlen.
  unfold disable_flow_control. rewrite Hget. simpl.
  rewrite set_in_range by lia. eexists. split; [reflexivity |].
  rewrite get_nonneg in Hget by lia.
  split; [exact Hget |].
  split; [intros j Hj; by apply list_lookup_insert_ne |].
  split; [apply length_insert |].
  intros n Hn. rewrite Z.land_spec, Z.lnot_spec, !Z.lor_spec by done. done.
Qed.

(** X28 with the constants of Linux (1024, 4096, 2048) on attributes whose
    entry 0 has the bit 1024 set and whose entry 3 is 35387: entry 0 is
    returned as it was and entry 3 becomes 35387 without its bit 2048, that
    is 33339. *)
Lemma disable_flow_control_clears_bits_of_entry_3_witness :
  let attrs : list (tty_attr (list Z)) :=
    [Flags 1280; Flags 5; Flags 191; Flags 35387; Flags 15; Flags 15;
     ControlChars [3; 28; 127]] in
  ∃ attrs', disable_flow_control 1024 4096 2048 true attrs = Some attrs' ∧
            attrs' !! 0%nat = Some (Flags 1280) ∧
            attrs' !! 3%nat = Some (Flags 33339).
Proof.
  intros attrs.
  destruct (disable_flow_control_clears_bits_of_entry_3 1024 4096 2048 attrs 35387)
    as [_ (z' & E & _ & Hother & _ & _)]; [reflexivity |].
  eexists. split; [exact E |].
  split; [by rewrite Hother |].
  vm_compute in E. injection E as E. vm_compute. by rewrite <- E.
Defined.

(** ** Unknown commands *)




(** ** Colours *)

Lemma lstrip_hashes (n : nat) (d : Z) (rest : pystr) :
  d ≠ 35 → lstrip_chars [35] (replicate n 35 ++ d :: rest) = d :: rest.
Proof.
  intros Hd. induction n as [| n IH]; cbn [replicate app lstrip_chars].
  - rewrite bool_decide_eq_false_2; [done |].
    rewrite elem_of_cons, elem_of_nil. tauto.
  - rewrite bool_decide_eq_true_2 by (by left). exact IH.
Qed.

Lemma hexval_range c v : hexval c = Some v → 0 ≤ v ≤ 15 ∧ c ≠ 35.
Proof.
  unfold hexval. repeat case_bool_decide; intros; simplify_eq; lia.
Qed.

(** X30.  Given a tuple, [hex_to_rgb] returns it.  Given a string of any
    number of [#] followed by six hexadecimal digits and anything after
    them, it returns the three integers that the pairs of digits denote,
    each between 0 and 255 (taking [int(_, 16)] to read two hexadecimal
    digits [a], [b] as [16 a + b]). *)
Theorem hex_to_rgb_reads_six_digits {T : Type} (int16 : pystr → option Z)
    (n : nat) (d1 d2 d3 d4 d5 d6 v1 v2 v3 v4 v5 v6 : Z) (rest : pystr) :
  (∀ a b x y, hexval a = Some x → hexval b = Some y → int16 [a; b] = Some (16 * x + y)) →
  hexval d1 = Some v1 → hexval d2 = Some v2 → hexval d3 = Some v3 →
  hexval d4 = Some v4 → hexval d5 = Some v5 → hexval d6 = Some v6 →
  (∀ t : T, hex_to_rgb int16 (ColourTuple t) = Some (Given t)) ∧
  hex_to_rgb (T := T) int16
    (ColourString (replicate n 35 ++ [d1; d2; d3; d4; d5; d6] ++ rest))
  = Some (Parsed (16 * v1 + v2) (16 * v3 + v4) (16 * v5 + v6)) ∧
  0 ≤ 16 * v1 + v2 ≤ 255 ∧ 0 ≤ 16 * v3 + v4 ≤ 255 ∧ 0 ≤ 16 * v5 + v6 ≤ 255.
Proof.
  intros Hint H1 H2 H3 H4 H5 H6. split; [done |].
  pose proof (hexval_range _ _ H1) as [R1 Hd1].
  pose proof (hexval_range _ _ H2) as [R2 _].
  pose proof (hexval_range _ _ H3) as [R3 _].
  pose proof (hexval_range _ _ H4) as [R4 _].
  pose proof (hexval_range _ _ H5) as [R5 _].
  pose proof (hexval_range _ _ H6) as [R6 _].
  split; [| lia].
  unfold hex_to_rgb.
  change ([d1; d2; d3; d4; d5; d6] ++ rest)
    with (d1 :: d2 :: d3 :: d4 :: d5 :: d6 :: rest).
  rewrite lstrip_hashes by done.
  change (take 2 (drop 0 (d1 :: d2 :: d3 :: d4 :: d5 :: d6 :: rest))) with [d1; d2].
  change (take 2 (drop 2 (d1 :: d2 :: d3 :: d4 :: d5 :: d6 :: rest))) with [d3; d4].
  change (take 2 (drop 4 (d1 :: d2 :: d3 :: d4 :: d5 :: d6 :: rest))) with [d5; d6].
  rewrite (Hint _ _ _ _ H1 H2), (Hint _ _ _ _ H3 H4), (Hint _ _ _ _ H5 H6).
  done.
Qed.

(** X30 for "#ff8000": the colour (255, 128, 0). *)
Lemma hex_to_rgb_reads_six_digits_witness :
  hex_to_rgb (T := Z * Z * Z) two_hex_digits (ColourString (py "#ff8000"))
  = Some (Parsed 255 128 0).
Proof.
  assert (Hint : ∀ a b x y, hexval a = Some x → hexval b = Some y →
                   two_hex_digits [a; b] = Some (16 * x + y))
    by (intros a b x y Ha Hb; simpl; by rewrite Ha, Hb).
  destruct (hex_to_rgb_reads_six_digits (T := Z * Z * Z) two_hex_digits 1
              102 102 56 48 48 48 15 15 8 0 0 0 [] Hint
              eq_refl eq_refl eq_refl eq_refl eq_refl eq_refl)
    as (_ & E & _).
  exact E.
Defined.
